(** * arcconf.py: the check-evaluation engine of the RAID textfile collector

    A shallow embedding of [src/arcconf.py]: the catalogue [BINARIES], the
    loop of [collect_metrics] over checks, lines and rules, the printing of
    [print_all_metrics] and [main].

    Python's [str] is modelled as [string]; a character is an [ascii], and
    the classes [\s], [\w], [\d] and the line boundaries of [splitlines] are
    those Python uses on code points below 128 (the vendor tools print
    ASCII).  On other code points Python's classes are wider (letters with
    accents are word characters, U+00A0 is whitespace, U+0085 ends a line)
    and the model says nothing of them: the theorems that tell which lines
    match a pattern are stated for ASCII text, see [is_ascii].  The calls
    into Python's [re] and [subprocess] modules are
    modelled after their documented behaviour, on the fragment of the
    pattern syntax that the catalogue uses. *)

From Stdlib Require Import Bool Arith Lia List String Ascii ZArith DecimalString.
Import ListNotations.
Local Open Scope string_scope.
Local Open Scope list_scope.
Local Open Scope nat_scope.

(** ** Exceptions and results *)

(** What an evaluation of Python code ends in, other than a value.
    [SystemExit] carries the message handed to [logger.error] just before
    [sys.exit(1)], which tells the three exits of [collect_metrics] apart. *)
Inductive exn : Type :=
| SystemExit (code : Z) (logged : string)
| NameError (name : string)
| ValueError
| IndexError
| OSError
| CalledProcessError (returncode : Z)
| PatternOutsideFragment (pattern : string).

Inductive result (A : Type) : Type :=
| Ok (a : A)
| Raise (e : exn).
Arguments Ok {A} a.
Arguments Raise {A} e.

Definition bind {A B : Type} (m : result A) (f : A -> result B) : result B :=
  match m with
  | Ok a => f a
  | Raise e => Raise e
  end.

Notation "x <- m ;; k" := (bind m (fun x => k))
  (at level 61, m at next level, right associativity).
Notation "' p <- m ;; k" := (bind m (fun p => k))
  (at level 61, p pattern, m at next level, right associativity).

(** A [for] loop whose body may raise: the state is threaded through the
    items in order and the first exception ends the loop. *)
Fixpoint for_each {A S : Type} (body : S -> A -> result S) (items : list A)
  (st : S) : result S :=
  match items with
  | [] => Ok st
  | x :: rest => st' <- body st x ;; for_each body rest st'
  end.

(** ** Characters *)

Module Chars.

Definition code (c : ascii) : nat := nat_of_ascii c.

Definition between (lo hi : nat) (c : ascii) : bool :=
  (lo <=? code c) && (code c <=? hi).

(** [\s] on ASCII text: TAB, LF, VT, FF, CR, the separators FS, GS, RS, US
    and the space.  (On [str] Python's [\s] also takes the Unicode spaces
    above 127, which the model leaves out.) *)
Definition is_space (c : ascii) : bool :=
  between 9 13 c || between 28 32 c.

(** [\d] on ASCII text: the digits 0 to 9.  (On [str] Python's [\d] also
    takes the decimal digits of other scripts.) *)
Definition is_digit (c : ascii) : bool := between 48 57 c.

Definition is_letter (c : ascii) : bool :=
  between 65 90 c || between 97 122 c.

(** [\w] on ASCII text: letters, digits and the underscore.  (On [str]
    Python's [\w] also takes the letters and digits above 127.) *)
Definition is_word (c : ascii) : bool :=
  is_letter c || is_digit c || (code c =? 95).

Definition is_newline (c : ascii) : bool := code c =? 10.

(** The line boundaries of [str.splitlines] below 128: LF, VT, FF, CR,
    FS, GS and RS.  (Python also breaks at U+0085, U+2028 and U+2029.) *)
Definition is_linebreak (c : ascii) : bool :=
  between 10 13 c || between 28 30 c.

End Chars.

(** ** The fragment of [re] used by the catalogue *)

Module Re.
Import Chars.

(** One-character items. *)
Inductive cset : Type :=
| CAny                      (* .  : anything but a newline *)
| CLit (c : ascii)          (* a literal, written plainly or escaped *)
| CSpace | CNotSpace        (* \s \S *)
| CWord | CNotWord          (* \w \W *)
| CDigit | CNotDigit.       (* \d \D *)

Inductive quant : Type := QOne | QStar | QPlus | QOpt.

(** A pattern is a sequence of items; each constructor carries the rest of
    the sequence.  Repetition applies to one-character items only, and there
    is no alternation: what the patterns of [arcconf.py] need. *)
Inductive regex : Type :=
| REnd
| RItem (c : cset) (q : quant) (rest : regex)
| RBol (rest : regex)                       (* ^ *)
| REol (rest : regex)                       (* $ *)
| RGroup (n : nat) (body : regex) (rest : regex).

Definition cset_match (c : cset) (a : ascii) : bool :=
  match c with
  | CAny => negb (is_newline a)
  | CLit b => Ascii.eqb a b
  | CSpace => is_space a
  | CNotSpace => negb (is_space a)
  | CWord => is_word a
  | CNotWord => negb (is_word a)
  | CDigit => is_digit a
  | CNotDigit => negb (is_digit a)
  end.

(** *** Reading a pattern *)

Definition is_repeat_char (c : ascii) : bool :=
  Ascii.eqb c "*" || Ascii.eqb c "+" || Ascii.eqb c "?" || Ascii.eqb c "{".

Definition starts_with_repeat (s : string) : bool :=
  match s with
  | String c _ => is_repeat_char c
  | EmptyString => false
  end.

(** The repetition that follows a one-character item, and what is left of
    the pattern.  A second repetition sign ([**], the lazy [*?], the
    possessive [*+]) and counted repetition are outside the fragment. *)
Definition parse_quant (s : string) : option (quant * string) :=
  match s with
  | String c s' =>
      if Ascii.eqb c "*" then
        if starts_with_repeat s' then None else Some (QStar, s')
      else if Ascii.eqb c "+" then
        if starts_with_repeat s' then None else Some (QPlus, s')
      else if Ascii.eqb c "?" then
        if starts_with_repeat s' then None else Some (QOpt, s')
      else if Ascii.eqb c "{" then None
      else Some (QOne, s)
  | EmptyString => Some (QOne, EmptyString)
  end.

(** A backslash and the character after it. *)
Definition parse_escape (c : ascii) : option cset :=
  if Ascii.eqb c "s" then Some CSpace
  else if Ascii.eqb c "S" then Some CNotSpace
  else if Ascii.eqb c "w" then Some CWord
  else if Ascii.eqb c "W" then Some CNotWord
  else if Ascii.eqb c "d" then Some CDigit
  else if Ascii.eqb c "D" then Some CNotDigit
  else if is_letter c || is_digit c then None
  else Some (CLit c).

(** Characters with a meaning of their own in a pattern. *)
Definition is_special (c : ascii) : bool :=
  Ascii.eqb c "." || Ascii.eqb c "\" || Ascii.eqb c "[" || Ascii.eqb c "{"
  || Ascii.eqb c "(" || Ascii.eqb c ")" || Ascii.eqb c "*" || Ascii.eqb c "+"
  || Ascii.eqb c "?" || Ascii.eqb c "^" || Ascii.eqb c "$" || Ascii.eqb c "|".

(** [parse_seq fuel g s] reads items up to the end of [s] or to a closing
    parenthesis; [g] is the number the next group gets (groups are numbered
    by their opening parenthesis).  It returns the items, the next free
    group number and the unread rest. *)
Fixpoint parse_seq (fuel : nat) (g : nat) (s : string)
  : option (regex * nat * string) :=
  match fuel with
  | O => None
  | S fuel' =>
    match s with
    | EmptyString => Some (REnd, g, EmptyString)
    | String c s1 =>
      if Ascii.eqb c ")" then Some (REnd, g, s)
      else if Ascii.eqb c "(" then
        if starts_with_repeat s1 then None
        else
          match parse_seq fuel' (S g) s1 with
          | Some (body, g1, String ")" s2) =>
              if starts_with_repeat s2 then None
              else
                match parse_seq fuel' g1 s2 with
                | Some (r, g2, s3) => Some (RGroup g body r, g2, s3)
                | None => None
                end
          | _ => None
          end
      else if Ascii.eqb c "^" then
        if starts_with_repeat s1 then None
        else
          match parse_seq fuel' g s1 with
          | Some (r, g1, s2) => Some (RBol r, g1, s2)
          | None => None
          end
      else if Ascii.eqb c "$" then
        if starts_with_repeat s1 then None
        else
          match parse_seq fuel' g s1 with
          | Some (r, g1, s2) => Some (REol r, g1, s2)
          | None => None
          end
      else if Ascii.eqb c "\" then
        match s1 with
        | String e s2 =>
            match parse_escape e, parse_quant s2 with
            | Some cs, Some (q, s3) =>
                match parse_seq fuel' g s3 with
                | Some (r, g1, s4) => Some (RItem cs q r, g1, s4)
                | None => None
                end
            | _, _ => None
            end
        | EmptyString => None
        end
      else if is_special c && negb (Ascii.eqb c ".") then None
      else
        match parse_quant s1 with
        | Some (q, s2) =>
            match parse_seq fuel' g s2 with
            | Some (r, g1, s3) =>
                Some (RItem (if Ascii.eqb c "." then CAny else CLit c) q r,
                      g1, s3)
            | None => None
            end
        | None => None
        end
    end
  end.

(** A compiled pattern: its items and the number of its groups. *)
Record pattern : Type := { items : regex; groups : nat }.

(** [re.compile], on the fragment; [None] is a pattern the fragment does not
    cover (it holds both the patterns [re] rejects and those it accepts with
    syntax the catalogue does not use). *)
Definition compile (p : string) : option pattern :=
  match parse_seq (S (String.length p)) 1 p with
  | Some (r, g, EmptyString) => Some {| items := r; groups := g - 1 |}
  | _ => None
  end.

(** *** Matching *)

(** The text of the groups that took part in a match, latest first. *)
Definition captures : Type := list (nat * string).

Fixpoint lookup (n : nat) (caps : captures) : option string :=
  match caps with
  | [] => None
  | (k, v) :: rest => if k =? n then Some v else lookup n rest
  end.

(** A point reached by the matcher: how many characters were consumed, the
    text still to read and the groups closed so far. *)
Record point : Type := { pos : nat; rest : string; caps : captures }.

(** The ways a greedy repetition of [c] can consume a prefix of [s], the
    longest first: the number of characters taken and the text left. *)
Fixpoint reps (c : cset) (s : string) : list (nat * string) :=
  match s with
  | String a s' =>
      if cset_match c a
      then map (fun '(k, t) => (S k, t)) (reps c s') ++ [(0, s)]
      else [(0, s)]
  | EmptyString => [(0, EmptyString)]
  end.

Definition item_ends (c : cset) (q : quant) (s : string)
  : list (nat * string) :=
  match q with
  | QOne =>
      match s with
      | String a s' => if cset_match c a then [(1, s')] else []
      | EmptyString => []
      end
  | QStar => reps c s
  | QPlus =>
      match s with
      | String a s' =>
          if cset_match c a
          then map (fun '(k, t) => (S k, t)) (reps c s')
          else []
      | EmptyString => []
      end
  | QOpt =>
      match s with
      | String a s' => if cset_match c a then [(1, s'); (0, s)] else [(0, s)]
      | EmptyString => [(0, EmptyString)]
      end
  end.

(** [$] without flags: at the end of the text, or before a newline that ends
    it. *)
Definition at_eol (s : string) : bool :=
  match s with
  | EmptyString => true
  | String c EmptyString => is_newline c
  | _ => false
  end.

(** All the ways [r] matches from a point, in the order a backtracking
    matcher tries them: the match [re] reports is the first. *)
Fixpoint run (r : regex) (p : point) : list point :=
  match r with
  | REnd => [p]
  | RItem c q r' =>
      flat_map
        (fun '(k, t) => run r' {| pos := pos p + k; rest := t; caps := caps p |})
        (item_ends c q (rest p))
  | RBol r' => if pos p =? 0 then run r' p else []
  | REol r' => if at_eol (rest p) then run r' p else []
  | RGroup n body r' =>
      flat_map
        (fun e =>
           run r' {| pos := pos e; rest := rest e;
                     caps := (n, substring 0 (pos e - pos p) (rest p)) :: caps e |})
        (run body p)
  end.

(** A match object: the groups of the pattern and the text each took. *)
Record match_obj : Type := { m_groups : nat; m_caps : captures }.

(** [re.match(pattern, s)] with an already compiled pattern: the match is
    tried at the start of [s] only. *)
Definition match_compiled (p : pattern) (s : string) : option match_obj :=
  match run (items p) {| pos := 0; rest := s; caps := [] |} with
  | [] => None
  | e :: _ => Some {| m_groups := groups p; m_caps := caps e |}
  end.

(** [re.match(pattern, s)]: [None] (Python's) when there is no match. *)
Definition re_match (p : string) (s : string) : result (option match_obj) :=
  match compile p with
  | None => Raise (PatternOutsideFragment p)
  | Some cp => Ok (match_compiled cp s)
  end.

(** [m.group(n)]: an [IndexError] for a group the pattern does not have,
    [None] for a group that took no part in the match. *)
Definition group (m : match_obj) (n : nat) : result (option string) :=
  if (n <=? m_groups m) then Ok (lookup n (m_caps m)) else Raise IndexError.

End Re.

(** ** Text helpers from Python's library *)

(** [str.splitlines()]: the lines of a text without their line boundaries;
    CR LF counts as one boundary and a boundary at the very end opens no
    further line. *)
Fixpoint splitlines (s : string) : list string :=
  match s with
  | EmptyString => []
  | String c s' =>
      if Chars.is_linebreak c then
        EmptyString ::
          match s' with
          | String d s'' =>
              if Ascii.eqb c "013" && Ascii.eqb d "010"
              then splitlines s''
              else splitlines s'
          | EmptyString => []
          end
      else
        match splitlines s' with
        | [] => [String c EmptyString]
        | l :: ls => String c l :: ls
        end
  end.

Definition ends_with_slash (s : string) : bool :=
  match String.length s with
  | O => false
  | S n => match String.get n s with
           | Some c => Ascii.eqb c "/"
           | None => false
           end
  end.

(** [os.path.join(a, b)] on POSIX. *)
Definition path_join (a b : string) : string :=
  if String.prefix "/" b then b
  else if (String.length a =? 0) || ends_with_slash a then (a ++ b)%string
  else (a ++ "/" ++ b)%string.

(** [str(x)] of a value that is a string or [None]. *)
Definition str_of (v : option string) : string :=
  match v with
  | Some s => s
  | None => "None"
  end.

(** [x != y] between a value that is a string or [None] and a string. *)
Definition differs (v : option string) (expected : string) : bool :=
  match v with
  | Some s => negb (String.eqb s expected)
  | None => true
  end.

(** ** The catalogue *)

Record separator_rule : Type := {
  regex : string;
  label : string
}.

(** One entry of a ['checks'] list.  An entry of ['values'] is a Python list
    of strings, unpacked by the engine. *)
Record check : Type := {
  name : string;
  args : list string;
  test : string;
  separator : option separator_rule;
  values : list (list string)
}.

Record binary_config : Type := {
  path : string;
  checks : list check
}.

Definition megacli_checks : list check :=
  [ {| name := "Enclosure state";
       args := ["-EncInfo"; "-aALL"];
       test := "megacli/enc.txt";
       separator := None;
       values := [ ["Status"; "Normal"] ] |};
    {| name := "Virtual drive state";
       args := ["-LDInfo"; "-Lall"; "-aALL"; "-NoLog"];
       test := "megacli/ld.txt";
       separator := None;
       values := [ ["State"; "Optimal"];
                   ["Bad Blocks Exist"; "No"] ] |};
    {| name := "Physical drive state";
       args := ["-PDList"; "-aALL"];
       test := "megacli/pd.txt";
       separator := None;
       values := [ ["Media Error Count"; "0"];
                   ["Predictive Failure Count"; "0"];
                   ["Firmware state"; "Online, Spun Up"];
                   ["Drive has flagged a S\.M\.A\.R\.T alert"; "No"] ] |};
    {| name := "Patrol read state";
       args := ["-AdpPR"; "-Info"; "-aALL"; "-NoLog"];
       test := "megacli/pr.txt";
       separator := None;
       values := [ ["Patrol Read Mode"; "Auto"] ] |};
    {| name := "Battery state";
       args := ["-AdpBbuCmd"; "-aALL"; "-NoLog"];
       test := "megacli/battery.txt";
       separator := None;
       values := [ ["Battery State"; "Optimal"] ] |} ].

Definition arcconf_checks : list check :=
  [ {| name := "Controller status";
       args := ["GETCONFIG"; "1"; "AD"];
       test := "arcconf/ad.txt";
       separator := None;
       values := [ ["Controller Status"; "controller_has_error"; "Optimal"];
                   ["Logical devices/Failed/Degraded";
                    "logical_device_degraded"; "1/0/0"];
                   ["Defunct disk drive count"; "has_defunct_drives"; "0"] ] |};
    {| name := "Logical device state";
       args := ["GETCONFIG"; "1"; "LD"];
       test := "arcconf/ld.txt";
       separator := None;
       values := [ ["Status of Logical Device";
                    "logical_device_has_error"; "Optimal"];
                   ["Parity Initialization Status";
                    "parity_initialization_incomplete"; "Completed"] ] |};
    {| name := "Physical device state";
       args := ["GETCONFIG"; "1"; "PD"];
       test := "arcconf/pd.txt";
       separator := Some {| regex := "\s+Device #(\d+)"; label := "device" |};
       values := [ ["State"; "drive_offline"; "Online"];
                   ["S.M.A.R.T. warnings"; "drive_has_smart_warnings"; "0"];
                   ["Aborted Commands"; "drive_has_aborted_commands"; "0"];
                   ["Bad Target Errors"; "drive_has_bad_target_errors"; "0"];
                   ["Format Errors"; "drive_has_format_errors"; "0"];
                   ["Hardware Errors"; "drive_has_hardware_errors"; "0"];
                   ["Hard Read Errors"; "drive_has_hw_read_errors"; "0"];
                   ["Hard Write Errors"; "drive_has_hw_read_errors"; "0"];
                   ["Media Failures"; "drive_has_media_failures"; "0"];
                   ["Not Ready Errors"; "drive_has_not_ready_errors"; "0"];
                   ["Predictive Failures";
                    "drive_has_predictive_failures"; "0"];
                   ["Scsi Bus Faults"; "drive_has_scsi_bus_faults"; "0"] ] |} ].

Definition megacli_config : binary_config :=
  {| path := "/usr/local/sbin/megacli"; checks := megacli_checks |}.

Definition arcconf_config : binary_config :=
  {| path := "/usr/local/sbin/arcconf"; checks := arcconf_checks |}.

Definition BINARIES : list (string * binary_config) :=
  [ ("megacli", megacli_config); ("arcconf", arcconf_config) ].

(** [dict.get]: the value of a key, [None] (Python's) without it. *)
Fixpoint dict_get {V : Type} (k : string) (d : list (string * V)) : option V :=
  match d with
  | [] => None
  | (k', v) :: d' => if String.eqb k' k then Some v else dict_get k d'
  end.

(** ** The world outside the program *)

(** The command line after [argparse]: the options the engine reads. *)
Record cli : Type := {
  vendor_binary : string;
  debug : bool
}.

(** What the program asks of its surroundings: whether a path is a regular
    file, the text of a file ([None]: it cannot be opened), and what running
    a command gives: its exit status and its decoded standard output
    ([None]: the command could not be started). *)
Record world : Type := {
  isfile : string -> bool;
  read_text : string -> option string;
  run_command : list string -> option (Z * string)
}.

Record completed_process : Type := {
  returncode : Z;
  stdout : string
}.

(** [subprocess.run(cmd, stdout=PIPE, check=..., universal_newlines=True)]:
    with [check] set, an exit status other than zero raises
    [CalledProcessError] in place of a result. *)
Definition subprocess_run (w : world) (cmd : list string) (chk : bool)
  : result completed_process :=
  match run_command w cmd with
  | None => Raise OSError
  | Some (rc, out) =>
      if chk && negb (rc =? 0)%Z then Raise (CalledProcessError rc)
      else Ok {| returncode := rc; stdout := out |}
  end.

(** ** The engine *)

(** One element of [metrics]: the five-element list appended at line 195. *)
Record metric : Type := {
  metric_name : string;
  separator_label : option string;
  separator_value : option string;
  status : Z;
  value : option string
}.

Definition int_of_bool (b : bool) : Z := if b then 1%Z else 0%Z.

(** The pattern built by the f-string of line 193: the attribute name is
    spliced into the pattern text as it is. *)
Definition attribute_pattern (attribute_name : string) : string :=
  ("^\s*" ++ attribute_name ++ "\s*:\s*(\w+.*)$")%string.

(** The body of the loop over [check['values']] (lines 192 to 201), for one
    entry; unpacking an entry that has not three elements is a
    [ValueError]. *)
Definition try_rule (line : string) (sep_label sep_value : option string)
  (metrics : list metric) (rule : list string) : result (list metric) :=
  match rule with
  | [attribute_name; metric_name; expected_value] =>
      res <- Re.re_match (attribute_pattern attribute_name) line ;;
      match res with
      | Some m =>
          g <- Re.group m 1 ;;
          Ok (metrics ++ [ {| metric_name := metric_name;
                              separator_label := sep_label;
                              separator_value := sep_value;
                              status := int_of_bool (differs g expected_value);
                              value := g |} ])
      | None => Ok metrics
      end
  | _ => Raise ValueError
  end.

(** The variables the loop over the lines changes. *)
Record scan : Type := {
  sep_value : option string;
  sep_label : option string;
  metrics : list metric
}.

(** "try to update separator" (lines 184 to 189). *)
Definition update_separator (chk : check) (st : scan) (line : string)
  : result (option string * option string) :=
  match separator chk with
  | Some separator_dict =>
      res <- Re.re_match (regex separator_dict) line ;;
      match res with
      | Some m =>
          g <- Re.group m 1 ;;
          Ok (g, Some (label separator_dict))
      | None => Ok (sep_value st, sep_label st)
      end
  | None => Ok (sep_value st, sep_label st)
  end.

(** The body of the loop over the lines (lines 182 to 201). *)
Definition scan_line (chk : check) (st : scan) (line : string) : result scan :=
  '(v, l) <- update_separator chk st line ;;
  ms <- for_each (try_rule line l v) (values chk) (metrics st) ;;
  Ok {| sep_value := v; sep_label := l; metrics := ms |}.

(** Lines 171 to 180: the text of a check, from its mock file with
    [--debug] and from the vendor binary without. *)
Definition fetch (w : world) (a : cli) (cfg : binary_config) (chk : check)
  : result string :=
  if debug a then
    match read_text w (path_join "mocks" (test chk)) with
    | Some cmd_res => Ok cmd_res
    | None => Raise OSError
    end
  else
    proc_res <- subprocess_run w (path cfg :: args chk) true ;;
    let cmd_res := stdout proc_res in
    if (String.length cmd_res =? 0) || negb (returncode proc_res =? 0)%Z
    then Raise (SystemExit 1 "Vendor binary returned empty result or error.")
    else Ok cmd_res.

(** The body of the loop over the checks (lines 166 to 201): the separator
    variables start at [None], the metrics are those gathered so far. *)
Definition run_check (w : world) (a : cli) (cfg : binary_config)
  (gathered : list metric) (chk : check) : result (list metric) :=
  cmd_res <- fetch w a cfg chk ;;
  st <- for_each (scan_line chk) (splitlines cmd_res)
          {| sep_value := None; sep_label := None; metrics := gathered |} ;;
  Ok (metrics st).

Definition collect_metrics (w : world) (a : cli) : result (list metric) :=
  binary_name <- (if (String.length (vendor_binary a) =? 0)
                  then Raise (NameError "config")
                  else Ok (vendor_binary a)) ;;
  match dict_get binary_name BINARIES with
  | None => Raise (SystemExit 1 "Unknown binary or no binary specified.")
  | Some binary_config =>
      if negb (debug a) && negb (isfile w (path binary_config))
      then Raise (SystemExit 1 "Supporting vendor binary not found.")
      else for_each (run_check w a binary_config) (checks binary_config) []
  end.

Definition string_of_Z (z : Z) : string :=
  DecimalString.NilZero.string_of_int (Z.to_int z).

(** The double quote of the exposition format. *)
Definition quote : ascii := "034".

Definition print_metric (a : cli) (m : metric) : string :=
  match separator_label m with
  | Some label_name =>
      (vendor_binary a ++ "_" ++ metric_name m ++ "{" ++ label_name ++ "=" ++
       String quote (str_of (separator_value m) ++ String quote (",state=" ++
       String quote (str_of (value m) ++ String quote ("} " ++
       string_of_Z (status m))))))%string
  | None =>
      (vendor_binary a ++ "_" ++ metric_name m ++ "{state=" ++
       String quote (str_of (value m) ++ String quote ("} " ++
       string_of_Z (status m))))%string
  end.

(** [print_all_metrics]: the lines written to standard output. *)
Definition print_all_metrics (a : cli) (ms : list metric) : list string :=
  map (print_metric a) ms.

(** What a run of the process leaves: the metric lines it printed and its
    exit status. *)
Record outcome : Type := {
  printed : list string;
  exit_status : Z
}.

(** [main], with what the interpreter does with an exception nobody catches:
    [SystemExit] ends the process with its code, any other exception with a
    traceback and status 1. *)
Definition main (w : world) (a : cli) : outcome :=
  match collect_metrics w a with
  | Ok ms => {| printed := print_all_metrics a ms; exit_status := 0 |}
  | Raise (SystemExit c _) => {| printed := []; exit_status := c |}
  | Raise _ => {| printed := []; exit_status := 1 |}
  end.

(** ** What the specification says of a check's records *)

(** The records one rule owes one line, given the group label and value in
    force: one record when the rule's pattern matches, none otherwise. *)
Definition rule_records (line : string) (l v : option string)
  (rule : list string) : list metric :=
  match rule with
  | [attribute_name; metric_name; expected_value] =>
      match Re.re_match (attribute_pattern attribute_name) line with
      | Ok (Some m) =>
          match Re.group m 1 with
          | Ok g => [ {| metric_name := metric_name;
                         separator_label := l;
                         separator_value := v;
                         status := int_of_bool (differs g expected_value);
                         value := g |} ]
          | Raise _ => []
          end
      | _ => []
      end
  | _ => []
  end.

(** A line that matches the separator pattern, with its first group. *)
Definition separator_hit (rx : string) (line : string)
  : option (option string) :=
  match Re.re_match rx line with
  | Ok (Some m) =>
      match Re.group m 1 with
      | Ok g => Some g
      | Raise _ => None
      end
  | _ => None
  end.

(** The nearest separator line, looking backwards from the last line. *)
Fixpoint nearest_hit (rx : string) (backwards : list string)
  : option (option string) :=
  match backwards with
  | [] => None
  | line :: earlier =>
      match separator_hit rx line with
      | Some g => Some g
      | None => nearest_hit rx earlier
      end
  end.

Definition nearest_separator (rx : string) (lines : list string)
  : option (option string) :=
  nearest_hit rx (rev lines).

(** The group value and label in force after the lines [seen]. *)
Definition group_value_at (chk : check) (seen : list string) : option string :=
  match separator chk with
  | Some sd =>
      match nearest_separator (regex sd) seen with
      | Some g => g
      | None => None
      end
  | None => None
  end.

Definition group_label_at (chk : check) (seen : list string) : option string :=
  match separator chk with
  | Some sd =>
      match nearest_separator (regex sd) seen with
      | Some _ => Some (label sd)
      | None => None
      end
  | None => None
  end.

(** The records of the line that follows the lines [seen]. *)
Definition line_records (chk : check) (seen : list string) (line : string)
  : list metric :=
  flat_map
    (rule_records line (group_label_at chk (seen ++ [line]))
                       (group_value_at chk (seen ++ [line])))
    (values chk).

(** The records of the lines [lines] that follow the lines [seen]. *)
Fixpoint scan_records (chk : check) (seen lines : list string) : list metric :=
  match lines with
  | [] => []
  | line :: rest =>
      line_records chk seen line ++ scan_records chk (seen ++ [line]) rest
  end.

(** What a record says of the attribute, its group apart. *)
Definition reading (r : metric) : string * Z * option string :=
  (metric_name r, status r, value r).

(** ** Lines, labels and patterns *)

(** Every character of [s] satisfies [p]. *)
Fixpoint all_chars (p : ascii -> bool) (s : string) : bool :=
  match s with
  | EmptyString => true
  | String c s' => p c && all_chars p s'
  end.

(** ASCII text: every character has a code below 128.  On such text the
    classes of [Chars] and the boundaries of [splitlines] are Python's. *)
Definition is_ascii (s : string) : bool :=
  all_chars (fun c => Chars.code c <? 128) s.

(** A label without characters that mean something in a pattern. *)
Definition plain (label : string) : bool :=
  all_chars (fun c => negb (Re.is_special c)) label.

(** Text made of whitespace only. *)
Definition blank (s : string) : bool := all_chars Chars.is_space s.

(** A text without a line feed. *)
Definition no_newline (s : string) : bool :=
  all_chars (fun c => negb (Chars.is_newline c)) s.

(** The items of a plain text: its characters, one after the other. *)
Fixpoint lits (s : string) (r : Re.regex) : Re.regex :=
  match s with
  | EmptyString => r
  | String c s' => Re.RItem (Re.CLit c) Re.QOne (lits s' r)
  end.

(** The items of the end of the pattern of line 193, from the whitespace
    before the colon to the end of the line. *)
Definition value_items : Re.regex :=
  Re.RItem Re.CSpace Re.QStar
    (Re.RItem (Re.CLit ":") Re.QOne
       (Re.RItem Re.CSpace Re.QStar
          (Re.RGroup 1
             (Re.RItem Re.CWord Re.QPlus (Re.RItem Re.CAny Re.QStar Re.REnd))
             (Re.REol Re.REnd)))).

(** The items of the whole pattern of line 193, for a plain label. *)
Definition attribute_items (label : string) : Re.regex :=
  Re.RBol (Re.RItem Re.CSpace Re.QStar (lits label value_items)).

(** Where [re.match] starts. *)
Definition start_of (line : string) : Re.point :=
  {| Re.pos := 0; Re.rest := line; Re.caps := [] |}.

(** The text without its leading whitespace. *)
Fixpoint lstrip (s : string) : string :=
  match s with
  | EmptyString => EmptyString
  | String c s' => if Chars.is_space c then lstrip s' else s
  end.

(** What follows the first character that is not whitespace, without its
    own leading whitespace. *)
Definition after_colon (s : string) : string :=
  match lstrip s with
  | String _ s' => lstrip s'
  | EmptyString => EmptyString
  end.

(** The shape of a line that states an attribute: optional whitespace, the
    label, optional whitespace, a colon, optional whitespace, and a value
    that starts with a word character and runs to the end of the line. *)
Definition attribute_line (label line observed : string) : Prop :=
  exists ws1 ws2 ws3 w rest,
    line = (ws1 ++ label ++ ws2 ++ ":" ++ ws3 ++ String w rest)%string /\
    blank ws1 = true /\ blank ws2 = true /\ blank ws3 = true /\
    Chars.is_word w = true /\
    observed = String w rest.

(** The shape as the specification words it: the value starts with any
    character that is not whitespace. *)
Definition stated_attribute_line (label line observed : string) : Prop :=
  exists ws1 ws2 ws3 c rest,
    line = (ws1 ++ label ++ ws2 ++ ":" ++ ws3 ++ String c rest)%string /\
    blank ws1 = true /\ blank ws2 = true /\ blank ws3 = true /\
    Chars.is_space c = false /\
    observed = String c rest.

(** ** Exceptions and well-formed checks *)

(** The exits the program asks for all have status 1. *)
Definition exits_with_one (e : exn) : Prop :=
  match e with
  | SystemExit c _ => c = 1%Z
  | _ => True
  end.

(** A pattern the fragment reads and that has a first group. *)
Definition pattern_ok (p : string) : bool :=
  match Re.compile p with
  | Some cp => 1 <=? Re.groups cp
  | None => false
  end.

(** A rule that unpacks into three strings, with such a pattern. *)
Definition rule_ok (rule : list string) : bool :=
  match rule with
  | [attribute_name; _; _] => pattern_ok (attribute_pattern attribute_name)
  | _ => false
  end.

(** A check with such rules and, when it has a separator, such a separator
    pattern. *)
Definition check_ok (chk : check) : bool :=
  forallb rule_ok (values chk) &&
  match separator chk with
  | Some sd => pattern_ok (regex sd)
  | None => true
  end.

(** ** Sample texts and worlds *)

(** The line feed. *)
Definition LF : string := String "010" EmptyString.

(** The text whose lines are [ls], each ended by a line feed. *)
Definition unlines (ls : list string) : string :=
  fold_right (fun l acc => (l ++ LF ++ acc)%string) EmptyString ls.

(** A world that has only mock files: [files] maps paths to texts. *)
Definition mock_world (files : list (string * string)) : world :=
  {| isfile := fun _ => false;
     read_text := fun p => dict_get p files;
     run_command := fun _ => None |}.

(** The command lines [-b binary --debug] and [-b binary]. *)
Definition debug_run (binary : string) : cli :=
  {| vendor_binary := binary; debug := true |}.

Definition live_run (binary : string) : cli :=
  {| vendor_binary := binary; debug := false |}.

(** The third check of the arcconf profile, the one with a separator. *)
Definition physical_device_check : check :=
  nth 2 arcconf_checks
      {| name := EmptyString; args := []; test := EmptyString;
         separator := None; values := [] |}.

(** The first check of the megacli profile. *)
Definition enclosure_check : check :=
  nth 0 megacli_checks physical_device_check.

(** A report of two physical devices, the second one failed. *)
Definition pd_text : string :=
  unlines [ "Controllers found: 1";
            "Physical Device information";
            "      Device #0";
            "         State                              : Online";
            "         S.M.A.R.T. warnings                : 0";
            "      Device #1";
            "         State                              : Failed";
            "         S.M.A.R.T. warnings                : 2" ].

Definition pd_world : world := mock_world [ ("mocks/arcconf/pd.txt", pd_text) ].

(** A check with two rules of the same label, on a text with that label on
    two lines. *)
Definition overlapping_check : check :=
  {| name := "Overlap"; args := []; test := "overlap.txt"; separator := None;
     values := [ ["State"; "drive_offline"; "Online"];
                 ["State"; "drive_failed"; "Failed"] ] |}.

Definition overlapping_text : string :=
  unlines [ "State : Online"; "Size : 1 TB"; "State : Online" ].

(** A world whose binary answers the controller query and prints nothing
    for any other. *)
Definition failing_binary_world : world :=
  {| isfile := fun _ => true;
     read_text := fun _ => None;
     run_command := fun cmd =>
       match cmd with
       | [_; "GETCONFIG"; "1"; "AD"] => Some (0%Z, "Controller Status : Optimal")
       | _ => Some (0%Z, EmptyString)
       end |}.

(** A world with a report for each check of the megacli profile. *)
Definition megacli_report_files : world :=
  mock_world
    [ ("mocks/megacli/enc.txt", "    Status              : Normal");
      ("mocks/megacli/ld.txt", "State               : Optimal");
      ("mocks/megacli/pd.txt", "Media Error Count: 0");
      ("mocks/megacli/pr.txt", "Patrol Read Mode: Auto");
      ("mocks/megacli/battery.txt", "Battery State: Optimal") ].

(** A world with an empty mock file for each check of the megacli
    profile. *)
Definition megacli_empty_files : world :=
  mock_world
    [ ("mocks/megacli/enc.txt", EmptyString);
      ("mocks/megacli/ld.txt", EmptyString);
      ("mocks/megacli/pd.txt", EmptyString);
      ("mocks/megacli/pr.txt", EmptyString);
      ("mocks/megacli/battery.txt", EmptyString) ].

(** A world with a mock file for each check of the arcconf profile. *)
Definition three_mock_files : world :=
  mock_world [ ("mocks/arcconf/ad.txt", "Controller Status : Optimal");
               ("mocks/arcconf/ld.txt", "Status of Logical Device : Degraded");
               ("mocks/arcconf/pd.txt", pd_text) ].

(** ** Whole runs *)

(** The records a check owes a run: those of the lines of its text. *)
Definition check_records (w : world) (a : cli) (cfg : binary_config)
  (chk : check) : list metric :=
  match fetch w a cfg chk with
  | Ok text => scan_records chk [] (splitlines text)
  | Raise _ => []
  end.

(** An exception that is not an exit the program asks for. *)
Definition not_exit (e : exn) : Prop :=
  match e with
  | SystemExit _ _ => False
  | _ => True
  end.

(** A text that holds no line boundary. *)
Definition one_line (s : string) : bool :=
  all_chars (fun c => negb (Chars.is_linebreak c)) s.

(** A check whose rules and separator label hold no line boundary. *)
Definition check_one_line (chk : check) : bool :=
  forallb (forallb one_line) (values chk) &&
  match separator chk with
  | Some sd => one_line (label sd)
  | None => true
  end.

(** A rule that the loop of line 192 cannot unpack. *)
Definition short_rule (rule : list string) : bool :=
  negb (List.length rule =? 3).

(** ** Device lines *)

(** The longest prefix of [s] whose characters satisfy [p], and the rest. *)
Fixpoint span (p : ascii -> bool) (s : string) : string * string :=
  match s with
  | String c s' =>
      if p c then let (a, b) := span p s' in (String c a, b)
      else (EmptyString, s)
  | EmptyString => (EmptyString, EmptyString)
  end.

(** What follows [pre] in [s], when [s] starts with it. *)
Fixpoint strip_prefix (pre s : string) : option string :=
  match pre with
  | EmptyString => Some s
  | String c pre' =>
      match s with
      | String d s' => if Ascii.eqb d c then strip_prefix pre' s' else None
      | EmptyString => None
      end
  end.

(** The first character of [s] satisfies [p]. *)
Definition starts_with (p : ascii -> bool) (s : string) : bool :=
  match s with
  | String c _ => p c
  | EmptyString => false
  end.

(** The number of a device line: after leading whitespace, one character
    at least, the text [Device #] and the longest run of digits, one at
    least. *)
Definition device_number (line : string) : option string :=
  let (ws, t) := span Chars.is_space line in
  match ws with
  | EmptyString => None
  | String _ _ =>
      match strip_prefix "Device #" t with
      | Some u =>
          match fst (span Chars.is_digit u) with
          | EmptyString => None
          | String d ds => Some (String d ds)
          end
      | None => None
      end
  end.

(** The items of the separator pattern of line 95. *)
Definition device_items : Re.regex :=
  Re.RItem Re.CSpace Re.QPlus
    (lits "Device #"
       (Re.RGroup 1 (Re.RItem Re.CDigit Re.QPlus Re.REnd) Re.REnd)).

(** ** Loops *)

Section Loops.

Variables (A S : Type) (body : S -> A -> result S).

Lemma for_each_app (xs ys : list A) (st : S) :
  for_each body (xs ++ ys) st = (st' <- for_each body xs st ;; for_each body ys st').
Proof.
  revert st; induction xs as [|x xs IH]; intros st; simpl; [reflexivity|].
  destruct (body st x) as [st1|e]; simpl; [apply IH | reflexivity].
Qed.

(** An exception in the body ends the loop: the items after it play no
    part. *)
Lemma for_each_raise (xs ys : list A) (x : A) (st st1 : S) (e : exn) :
  for_each body xs st = Ok st1 ->
  body st1 x = Raise e ->
  for_each body (xs ++ x :: ys) st = Raise e.
Proof.
  intros Hxs Hx. rewrite for_each_app, Hxs. simpl. rewrite Hx. reflexivity.
Qed.

Lemma for_each_ok_prefix (xs ys : list A) (st st2 : S) :
  for_each body (xs ++ ys) st = Ok st2 ->
  exists st1, for_each body xs st = Ok st1 /\ for_each body ys st1 = Ok st2.
Proof.
  rewrite for_each_app. destruct (for_each body xs st) as [st1|e]; simpl.
  - intros H. exists st1. split; [reflexivity | exact H].
  - discriminate.
Qed.

End Loops.

(** ** The loops of [collect_metrics] against the specification's records *)

Lemma bind_ok {A B : Type} (m : result A) (f : A -> result B) (b : B) :
  bind m f = Ok b -> exists a, m = Ok a /\ f a = Ok b.
Proof.
  destruct m as [a|e]; simpl; [|discriminate].
  intros H. exists a. split; [reflexivity | exact H].
Qed.

Lemma try_rule_records line l v ms rule ms' :
  try_rule line l v ms rule = Ok ms' ->
  ms' = ms ++ rule_records line l v rule.
Proof.
  unfold try_rule, rule_records.
  destruct rule as [|a [|m [|e [|x rule]]]]; try discriminate.
  destruct (Re.re_match (attribute_pattern a) line) as [[mo|]|ex]; simpl;
    try discriminate.
  - destruct (Re.group mo 1) as [g|ex]; simpl; [|discriminate].
    intros H; injection H as <-. reflexivity.
  - intros H; injection H as <-. now rewrite app_nil_r.
Qed.

Lemma try_rules_records line l v rules : forall ms ms',
  for_each (try_rule line l v) rules ms = Ok ms' ->
  ms' = ms ++ flat_map (rule_records line l v) rules.
Proof.
  induction rules as [|rule rules IH]; intros ms ms'; simpl.
  - intros H; injection H as <-. now rewrite app_nil_r.
  - intros H. apply bind_ok in H as (ms1 & H1 & H2).
    apply try_rule_records in H1. apply IH in H2. subst.
    now rewrite app_assoc.
Qed.

Lemma nearest_separator_snoc rx seen line :
  nearest_separator rx (seen ++ [line]) =
  match separator_hit rx line with
  | Some g => Some g
  | None => nearest_separator rx seen
  end.
Proof.
  unfold nearest_separator. rewrite rev_app_distr. reflexivity.
Qed.

(** The separator variables after a line are the group value and label the
    specification puts in force there. *)
Lemma update_separator_nearest chk seen st line v l :
  sep_value st = group_value_at chk seen ->
  sep_label st = group_label_at chk seen ->
  update_separator chk st line = Ok (v, l) ->
  v = group_value_at chk (seen ++ [line]) /\
  l = group_label_at chk (seen ++ [line]).
Proof.
  unfold update_separator, group_value_at, group_label_at.
  intros Hv Hl. destruct (separator chk) as [sd|].
  - rewrite nearest_separator_snoc. unfold separator_hit.
    destruct (Re.re_match (regex sd) line) as [[mo|]|ex]; simpl;
      try discriminate.
    + destruct (Re.group mo 1) as [g|ex]; simpl; [|discriminate].
      intros H; injection H as <- <-. split; reflexivity.
    + intros H; injection H as <- <-. split; assumption.
  - intros H; injection H as <- <-. split; assumption.
Qed.

Lemma scan_line_records chk seen st line st' :
  sep_value st = group_value_at chk seen ->
  sep_label st = group_label_at chk seen ->
  scan_line chk st line = Ok st' ->
  sep_value st' = group_value_at chk (seen ++ [line]) /\
  sep_label st' = group_label_at chk (seen ++ [line]) /\
  metrics st' = metrics st ++ line_records chk seen line.
Proof.
  intros Hv Hl H. unfold scan_line in H.
  apply bind_ok in H as ([v l] & Hsep & H).
  apply bind_ok in H as (ms & Hrules & H). injection H as <-. simpl.
  destruct (update_separator_nearest _ _ _ _ _ _ Hv Hl Hsep) as [-> ->].
  apply try_rules_records in Hrules. repeat split; assumption.
Qed.

Lemma scan_lines_records chk lines : forall seen st st',
  sep_value st = group_value_at chk seen ->
  sep_label st = group_label_at chk seen ->
  for_each (scan_line chk) lines st = Ok st' ->
  metrics st' = metrics st ++ scan_records chk seen lines.
Proof.
  induction lines as [|line lines IH]; intros seen st st' Hv Hl; simpl.
  - intros H; injection H as <-. now rewrite app_nil_r.
  - intros H. apply bind_ok in H as (st1 & H1 & H2).
    destruct (scan_line_records _ _ _ _ _ Hv Hl H1) as (Hv1 & Hl1 & Hm1).
    rewrite (IH _ _ _ Hv1 Hl1 H2), Hm1. now rewrite app_assoc.
Qed.

Lemma group_value_at_nil chk : group_value_at chk [] = None.
Proof. unfold group_value_at. now destruct (separator chk). Qed.

Lemma group_label_at_nil chk : group_label_at chk [] = None.
Proof. unfold group_label_at. now destruct (separator chk). Qed.

(** The records a check adds are those the specification lists for the
    lines of its text, whatever was gathered before. *)
Lemma run_check_records w a cfg gathered chk text ms :
  fetch w a cfg chk = Ok text ->
  run_check w a cfg gathered chk = Ok ms ->
  ms = gathered ++ scan_records chk [] (splitlines text).
Proof.
  intros Hf H. unfold run_check in H. rewrite Hf in H. simpl in H.
  apply bind_ok in H as (st & Hscan & H). injection H as <-.
  apply (scan_lines_records chk _ []) in Hscan.
  - exact Hscan.
  - simpl. now rewrite group_value_at_nil.
  - simpl. now rewrite group_label_at_nil.
Qed.

(** A check whose text is empty adds nothing and raises nothing: in a
    debug run, where [fetch] accepts an empty mock file, the run goes on to
    the next check. *)
Lemma empty_text_adds_nothing w a cfg gathered chk :
  fetch w a cfg chk = Ok EmptyString ->
  run_check w a cfg gathered chk = Ok gathered.
Proof. intros H. unfold run_check. rewrite H. reflexivity. Qed.

Lemma fetch_empty_mock_file w a cfg chk :
  debug a = true ->
  read_text w (path_join "mocks" (test chk)) = Some EmptyString ->
  fetch w a cfg chk = Ok EmptyString.
Proof. intros Hd Hr. unfold fetch. now rewrite Hd, Hr. Qed.

Lemma scan_records_app chk l1 : forall seen l2,
  scan_records chk seen (l1 ++ l2) =
  scan_records chk seen l1 ++ scan_records chk (seen ++ l1) l2.
Proof.
  induction l1 as [|x l1 IH]; intros seen l2; simpl.
  - now rewrite app_nil_r.
  - rewrite IH, <- !app_assoc. reflexivity.
Qed.

Lemma nearest_hit_none rx ls :
  (forall l, In l ls -> separator_hit rx l = None) ->
  nearest_hit rx ls = None.
Proof.
  induction ls as [|x ls IH]; simpl; intros H; [reflexivity|].
  rewrite (H x) by now left. apply IH. intros l Hl. apply H. now right.
Qed.

Lemma nearest_separator_none rx lines :
  (forall l, In l lines -> separator_hit rx l = None) ->
  nearest_separator rx lines = None.
Proof.
  intros H. apply nearest_hit_none. intros l Hl. apply H.
  now apply in_rev.
Qed.

Lemma nearest_separator_last rx pre l post g :
  separator_hit rx l = Some g ->
  (forall l', In l' post -> separator_hit rx l' = None) ->
  nearest_separator rx (pre ++ l :: post) = Some g.
Proof.
  intros Hl Hpost. unfold nearest_separator.
  rewrite rev_app_distr. simpl. rewrite <- app_assoc. simpl.
  assert (forall ls tail, (forall x, In x ls -> separator_hit rx x = None) ->
            nearest_hit rx (ls ++ tail) = nearest_hit rx tail) as Hskip.
  { induction ls as [|x ls IH]; simpl; intros tail H; [reflexivity|].
    rewrite (H x) by now left. apply IH. intros y Hy. apply H. now right. }
  rewrite Hskip.
  - simpl. now rewrite Hl.
  - intros x Hx. apply Hpost. now apply in_rev.
Qed.

Lemma nearest_separator_some rx lines g :
  nearest_separator rx lines = Some g ->
  exists l, In l lines /\ separator_hit rx l = Some g.
Proof.
  unfold nearest_separator. intros H.
  assert (exists l, In l (rev lines) /\ separator_hit rx l = Some g) as (l & Hin & Hl).
  { induction (rev lines) as [|x ls IH]; simpl in H; [discriminate|].
    destruct (separator_hit rx x) as [g'|] eqn:Hx.
    - injection H as <-. exists x. split; [now left | exact Hx].
    - destruct (IH H) as (l & Hin & Hl). exists l. split; [now right | exact Hl]. }
  exists l. split; [now apply in_rev | exact Hl].
Qed.

Lemma rule_records_group line l v rule r :
  In r (rule_records line l v rule) ->
  separator_label r = l /\ separator_value r = v.
Proof.
  unfold rule_records.
  destruct rule as [|a [|m [|e [|x rule]]]]; simpl; try tauto.
  destruct (Re.re_match (attribute_pattern a) line) as [[mo|]|ex]; simpl;
    try tauto.
  destruct (Re.group mo 1) as [g|ex]; simpl; try tauto.
  intros [<-|[]]. simpl. split; reflexivity.
Qed.

Lemma line_records_group chk seen line r :
  In r (line_records chk seen line) ->
  separator_label r = group_label_at chk (seen ++ [line]) /\
  separator_value r = group_value_at chk (seen ++ [line]).
Proof.
  unfold line_records. rewrite in_flat_map. intros (rule & _ & Hr).
  now apply rule_records_group in Hr.
Qed.

Lemma scan_records_in chk lines : forall seen r,
  In r (scan_records chk seen lines) ->
  exists before line, In line lines /\ incl before (seen ++ lines) /\
                      In r (line_records chk before line).
Proof.
  induction lines as [|line lines IH]; intros seen r; simpl; [tauto|].
  rewrite in_app_iff. intros [H|H].
  - exists seen, line. split; [now left|]. split; [|exact H].
    apply incl_appl, incl_refl.
  - destruct (IH _ _ H) as (before & l & Hl & Hincl & Hr).
    exists before, l. split; [now right|]. split; [|exact Hr].
    rewrite <- app_assoc in Hincl. exact Hincl.
Qed.

Lemma rule_records_inv line l v rule r :
  In r (rule_records line l v rule) ->
  exists attribute_name expected_value m,
    rule = [attribute_name; metric_name r; expected_value] /\
    Re.re_match (attribute_pattern attribute_name) line = Ok (Some m) /\
    Re.group m 1 = Ok (value r) /\
    status r = int_of_bool (differs (value r) expected_value).
Proof.
  unfold rule_records.
  destruct rule as [|a [|m [|e [|x rule]]]]; simpl; try tauto.
  destruct (Re.re_match (attribute_pattern a) line) as [[mo|]|ex] eqn:Hm;
    simpl; try tauto.
  destruct (Re.group mo 1) as [g|ex] eqn:Hg; simpl; try tauto.
  intros [<-|[]]. simpl. exists a, e, mo. repeat split; assumption.
Qed.

Lemma differs_false g expected : g = Some expected -> differs g expected = false.
Proof. intros ->. simpl. now rewrite String.eqb_refl. Qed.

Lemma differs_true g expected : g <> Some expected -> differs g expected = true.
Proof.
  destruct g as [s|]; simpl; [|reflexivity].
  intros H. destruct (String.eqb_spec s expected) as [->|]; [now elim H | reflexivity].
Qed.

Lemma map_flat_map {A B C : Type} (f : B -> C) (g : A -> list B) (l : list A) :
  map f (flat_map g l) = flat_map (fun x => map f (g x)) l.
Proof.
  induction l as [|x l IH]; simpl; [reflexivity|].
  now rewrite map_app, IH.
Qed.

Lemma rule_records_reading line l v rule :
  map reading (rule_records line l v rule) =
  map reading (rule_records line None None rule).
Proof.
  unfold rule_records.
  destruct rule as [|a [|m [|e [|x rule]]]]; simpl; try reflexivity.
  destruct (Re.re_match (attribute_pattern a) line) as [[mo|]|ex]; simpl;
    try reflexivity.
  destruct (Re.group mo 1) as [g|ex]; reflexivity.
Qed.

Lemma scan_records_reading chk lines : forall seen,
  map reading (scan_records chk seen lines) =
  flat_map
    (fun line =>
       flat_map (fun rule => map reading (rule_records line None None rule))
                (values chk))
    lines.
Proof.
  induction lines as [|line lines IH]; intros seen; simpl; [reflexivity|].
  rewrite map_app, IH. f_equal.
  unfold line_records. rewrite map_flat_map.
  apply flat_map_ext. intros rule. apply rule_records_reading.
Qed.

(** ** Exceptions of the run *)

Lemma for_each_raise_inv {A S : Type} (body : S -> A -> result S) xs :
  forall st e,
    for_each body xs st = Raise e ->
    exists st1 x, In x xs /\ body st1 x = Raise e.
Proof.
  induction xs as [|x xs IH]; intros st e; simpl; [discriminate|].
  destruct (body st x) as [st1|e1] eqn:Hx; simpl.
  - intros H. destruct (IH _ _ H) as (st2 & y & Hy & Hb).
    exists st2, y. split; [now right | exact Hb].
  - intros H; injection H as <-. exists st, x. split; [now left | exact Hx].
Qed.

Lemma re_match_raise p s e :
  Re.re_match p s = Raise e -> exits_with_one e.
Proof.
  unfold Re.re_match. destruct (Re.compile p); [discriminate|].
  intros H; injection H as <-. exact I.
Qed.

Lemma group_raise m n e : Re.group m n = Raise e -> exits_with_one e.
Proof.
  unfold Re.group. destruct (n <=? Re.m_groups m); [discriminate|].
  intros H; injection H as <-. exact I.
Qed.

Lemma try_rule_raise line l v ms rule e :
  try_rule line l v ms rule = Raise e -> exits_with_one e.
Proof.
  unfold try_rule.
  destruct rule as [|a [|m [|x [|y rule]]]];
    try (intros H; injection H as <-; exact I).
  destruct (Re.re_match (attribute_pattern a) line) as [[mo|]|ex] eqn:Hm;
    simpl; try discriminate.
  - destruct (Re.group mo 1) as [g|ex] eqn:Hg; simpl; [discriminate|].
    intros H; injection H as <-. exact (group_raise _ _ _ Hg).
  - intros H; injection H as <-. exact (re_match_raise _ _ _ Hm).
Qed.

Lemma scan_line_raise chk st line e :
  scan_line chk st line = Raise e -> exits_with_one e.
Proof.
  unfold scan_line, update_separator.
  destruct (separator chk) as [sd|]; simpl.
  - destruct (Re.re_match (regex sd) line) as [[mo|]|ex] eqn:Hm; simpl.
    + destruct (Re.group mo 1) as [g|ex] eqn:Hg; simpl.
      * destruct (for_each _ (values chk) (metrics st)) as [ms|ex] eqn:Hr;
          simpl; [discriminate|].
        intros H; injection H as <-.
        apply for_each_raise_inv in Hr as (ms1 & rule & _ & Hr).
        exact (try_rule_raise _ _ _ _ _ _ Hr).
      * intros H; injection H as <-. exact (group_raise _ _ _ Hg).
    + destruct (for_each _ (values chk) (metrics st)) as [ms|ex] eqn:Hr;
        simpl; [discriminate|].
      intros H; injection H as <-.
      apply for_each_raise_inv in Hr as (ms1 & rule & _ & Hr).
      exact (try_rule_raise _ _ _ _ _ _ Hr).
    + intros H; injection H as <-. exact (re_match_raise _ _ _ Hm).
  - destruct (for_each _ (values chk) (metrics st)) as [ms|ex] eqn:Hr;
      simpl; [discriminate|].
    intros H; injection H as <-.
    apply for_each_raise_inv in Hr as (ms1 & rule & _ & Hr).
    exact (try_rule_raise _ _ _ _ _ _ Hr).
Qed.

Lemma fetch_raise w a cfg chk e :
  fetch w a cfg chk = Raise e -> exits_with_one e.
Proof.
  unfold fetch, subprocess_run. destruct (debug a).
  - destruct (read_text w _); [discriminate|].
    intros H; injection H as <-. exact I.
  - destruct (run_command w _) as [[rc out]|]; simpl.
    + destruct (negb (rc =? 0)%Z) eqn:Hrc; simpl.
      * intros H; injection H as <-. exact I.
      * rewrite Hrc.
        destruct (String.length out =? 0); simpl; [|discriminate].
        intros H; injection H as <-. reflexivity.
    + intros H; injection H as <-. exact I.
Qed.

Lemma run_check_raise w a cfg gathered chk e :
  run_check w a cfg gathered chk = Raise e -> exits_with_one e.
Proof.
  unfold run_check.
  destruct (fetch w a cfg chk) as [text|ex] eqn:Hf; simpl.
  - destruct (for_each _ (splitlines text) _) as [st|ex] eqn:Hs; simpl;
      [discriminate|].
    intros H; injection H as <-.
    apply for_each_raise_inv in Hs as (st1 & line & _ & Hs).
    exact (scan_line_raise _ _ _ _ Hs).
  - intros H; injection H as <-. exact (fetch_raise _ _ _ _ _ Hf).
Qed.

Lemma collect_metrics_raise w a e :
  collect_metrics w a = Raise e -> exits_with_one e.
Proof.
  unfold collect_metrics.
  destruct (String.length (vendor_binary a) =? 0); cbn [bind].
  - intros H; injection H as <-. exact I.
  - destruct (dict_get (vendor_binary a) BINARIES) as [cfg|].
    + destruct (negb (debug a) && negb (isfile w (path cfg))).
      * intros H; injection H as <-. reflexivity.
      * intros H. apply for_each_raise_inv in H as (ms & chk & _ & H).
        exact (run_check_raise _ _ _ _ _ _ H).
    + intros H; injection H as <-. reflexivity.
Qed.

(** A run that raises prints no metric line and ends with status 1. *)
Lemma main_of_raise w a e :
  collect_metrics w a = Raise e ->
  main w a = {| printed := []; exit_status := 1 |}.
Proof.
  intros H. unfold main. rewrite H.
  apply collect_metrics_raise in H.
  destruct e; simpl in *; try reflexivity. now subst.
Qed.

(** A live check whose command ends with a status other than zero, or with
    no output, raises. *)
Lemma fetch_live_failure w a cfg chk rc out :
  debug a = false ->
  run_command w (path cfg :: args chk) = Some (rc, out) ->
  out = EmptyString \/ rc <> 0%Z ->
  exists e, fetch w a cfg chk = Raise e.
Proof.
  intros Hd Hrun Hbad. unfold fetch, subprocess_run. rewrite Hd, Hrun.
  destruct (Z.eqb_spec rc 0) as [->|Hrc]; simpl.
  - destruct Hbad as [->|Hne]; [|now elim Hne]. simpl. eauto.
  - eauto.
Qed.

Lemma run_checks_failure w a cfg chk (chks : list check) :
  In chk chks ->
  (exists e, fetch w a cfg chk = Raise e) ->
  forall gathered,
    exists e, for_each (run_check w a cfg) chks gathered = Raise e.
Proof.
  intros Hin (e & He).
  induction chks as [|c chks IH]; intros gathered; simpl; [destruct Hin|].
  destruct (run_check w a cfg gathered c) as [ms|ex] eqn:Hc; simpl.
  - destruct Hin as [->|Hin].
    + unfold run_check in Hc. rewrite He in Hc. discriminate.
    + apply IH, Hin.
  - eauto.
Qed.

(** ** Loops with the same body *)

Lemma for_each_ext {A S : Type} (f g : S -> A -> result S) xs :
  (forall x, In x xs -> forall st, f st x = g st x) ->
  forall st, for_each f xs st = for_each g xs st.
Proof.
  induction xs as [|x xs IH]; intros H st; simpl; [reflexivity|].
  rewrite (H x) by now left.
  destruct (g st x) as [st1|e]; simpl; [|reflexivity].
  apply IH. intros y Hy. apply H. now right.
Qed.

(** ** Texts *)

Section Text.

Lemma append_assoc (a b c : string) :
  ((a ++ b) ++ c = a ++ (b ++ c))%string.
Proof. induction a as [|x a IH]; simpl; [reflexivity | now rewrite IH]. Qed.

Lemma append_nil_r (a : string) : (a ++ EmptyString)%string = a.
Proof. induction a as [|x a IH]; simpl; [reflexivity | now rewrite IH]. Qed.

Lemma length_append (a b : string) :
  String.length (a ++ b) = String.length a + String.length b.
Proof. induction a as [|x a IH]; simpl; [reflexivity | now rewrite IH]. Qed.

Lemma append_inv_head (a b c : string) :
  (a ++ b = a ++ c)%string -> b = c.
Proof.
  induction a as [|x a IH]; simpl; intros H; [exact H|].
  injection H as H. now apply IH.
Qed.

Lemma substring_prefix (a b : string) :
  substring 0 (String.length a) (a ++ b) = a.
Proof.
  induction a as [|x a IH]; simpl.
  - now destruct b.
  - now rewrite IH.
Qed.

Lemma all_chars_append p (a b : string) :
  all_chars p (a ++ b) = all_chars p a && all_chars p b.
Proof.
  induction a as [|x a IH]; simpl; [reflexivity|].
  now rewrite IH, andb_assoc.
Qed.

Lemma all_chars_impl (p q : ascii -> bool) s :
  (forall c, p c = true -> q c = true) ->
  all_chars p s = true -> all_chars q s = true.
Proof.
  intros Hpq. induction s as [|c s IH]; simpl; [reflexivity|].
  rewrite !andb_true_iff. intros [Hc Hs]. split; [now apply Hpq | now apply IH].
Qed.

Lemma lstrip_blank ws s : blank ws = true -> lstrip (ws ++ s) = lstrip s.
Proof.
  unfold blank. induction ws as [|c ws IH]; simpl; [reflexivity|].
  rewrite andb_true_iff. intros [Hc Hws]. rewrite Hc. now apply IH.
Qed.

Lemma lstrip_nonspace c s :
  Chars.is_space c = false -> lstrip (String c s) = String c s.
Proof. intros H. simpl. now rewrite H. Qed.

(** A text is whitespace only, or has a first character that is not. *)
Lemma blank_or_not s :
  blank s = true \/
  exists ws c s', s = (ws ++ String c s')%string /\ blank ws = true /\
                  Chars.is_space c = false.
Proof.
  unfold blank. induction s as [|c s IH]; simpl; [now left|].
  destruct (Chars.is_space c) eqn:Hc.
  - destruct IH as [IH|(ws & d & s' & -> & Hws & Hd)].
    + now left.
    + right. exists (String c ws), d, s'. simpl. rewrite Hc, Hws. auto.
  - right. exists EmptyString, c, s. auto.
Qed.

Lemma word_is_not_space c : Chars.is_word c = true -> Chars.is_space c = false.
Proof.
  destruct c as [[] [] [] [] [] [] [] []]; vm_compute; congruence.
Qed.

Lemma newline_is_linebreak c :
  Chars.is_newline c = true -> Chars.is_linebreak c = true.
Proof.
  destruct c as [[] [] [] [] [] [] [] []]; vm_compute; congruence.
Qed.

(** The lines of [splitlines] hold no line boundary. *)
Lemma splitlines_no_linebreak text : forall line,
  In line (splitlines text) ->
  all_chars (fun c => negb (Chars.is_linebreak c)) line = true.
Proof.
  assert (forall n text, String.length text <= n -> forall line,
            In line (splitlines text) ->
            all_chars (fun c => negb (Chars.is_linebreak c)) line = true) as H.
  { induction n as [|n IH]; intros t Hlen line.
    - destruct t; simpl in *; [tauto | lia].
    - destruct t as [|c t]; [simpl; tauto|]. simpl in Hlen.
      cbn [splitlines]. destruct (Chars.is_linebreak c) eqn:Hc.
      + intros [<-|Hin]; [reflexivity|].
        destruct t as [|d t]; [destruct Hin|].
        destruct (Ascii.eqb c "013" && Ascii.eqb d "010").
        * apply (IH t); [simpl in Hlen; lia | exact Hin].
        * apply (IH (String d t)); [lia | exact Hin].
      + destruct (splitlines t) as [|l ls] eqn:Ht.
        * intros [<-|[]]. simpl. now rewrite Hc.
        * intros [<-|Hin].
          -- simpl. rewrite Hc. simpl. apply (IH t); [lia|].
             rewrite Ht. now left.
          -- apply (IH t); [lia|]. rewrite Ht. now right. }
  intros line. now apply (H (String.length text)).
Qed.

End Text.

(** ** The matcher *)

Section Matcher.
Import Re.

Lemma in_reps c s k t :
  In (k, t) (reps c s) <->
  exists used, s = (used ++ t)%string /\ k = String.length used /\
               all_chars (cset_match c) used = true.
Proof.
  revert k t. induction s as [|a s IH]; intros k t; simpl.
  - split.
    + intros [H|[]]. injection H as <- <-. exists EmptyString. auto.
    + intros (used & Hs & -> & _). destruct used; [|discriminate].
      simpl in Hs. subst t. now left.
  - destruct (cset_match c a) eqn:Ha.
    + rewrite in_app_iff, in_map_iff. split.
      * intros [([k' t'] & Heq & Hin)|[H|[]]].
        -- injection Heq as <- <-. apply IH in Hin as (used & -> & -> & Hall).
           exists (String a used). simpl. rewrite Ha, Hall. auto.
        -- injection H as <- <-. exists EmptyString. auto.
      * intros (used & Hs & -> & Hall). destruct used as [|b used].
        -- simpl in Hs. subst t. right. now left.
        -- simpl in Hs. injection Hs as <- ->. simpl in Hall.
           apply andb_true_iff in Hall as [_ Hall].
           left. exists (String.length used, t). split; [reflexivity|].
           apply IH. exists used. auto.
    + split.
      * intros [H|[]]. injection H as <- <-. exists EmptyString. auto.
      * intros (used & Hs & -> & Hall). destruct used as [|b used].
        -- simpl in Hs. subst t. now left.
        -- simpl in Hs. injection Hs as <- ->. simpl in Hall.
           rewrite Ha in Hall. discriminate.
Qed.

Lemma in_run_star c r p e :
  In e (run (RItem c QStar r) p) <->
  exists used t,
    rest p = (used ++ t)%string /\ all_chars (cset_match c) used = true /\
    In e (run r {| pos := pos p + String.length used; rest := t;
                   caps := caps p |}).
Proof.
  cbn [run item_ends]. rewrite in_flat_map. split.
  - intros ([k t] & Hin & He). apply in_reps in Hin as (used & Hs & -> & Hall).
    exists used, t. auto.
  - intros (used & t & Hs & Hall & He). exists (String.length used, t).
    split; [|exact He]. apply in_reps. exists used. auto.
Qed.

Lemma in_run_plus c r p e :
  In e (run (RItem c QPlus r) p) <->
  exists a used t,
    rest p = String a (used ++ t) /\ cset_match c a = true /\
    all_chars (cset_match c) used = true /\
    In e (run r {| pos := pos p + S (String.length used); rest := t;
                   caps := caps p |}).
Proof.
  cbn [run item_ends]. rewrite in_flat_map. split.
  - intros ([k t] & Hin & He). destruct (rest p) as [|a s]; [destruct Hin|].
    destruct (cset_match c a) eqn:Ha; [|destruct Hin].
    apply in_map_iff in Hin as ([k' t'] & Heq & Hin). injection Heq as <- <-.
    apply in_reps in Hin as (used & -> & -> & Hall).
    exists a, used, t'. auto.
  - intros (a & used & t & Hs & Ha & Hall & He).
    exists (S (String.length used), t). split; [|exact He].
    rewrite Hs, Ha. apply in_map_iff.
    exists (String.length used, t). split; [reflexivity|].
    apply in_reps. exists used. auto.
Qed.

Lemma in_run_one c r p e :
  In e (run (RItem c QOne r) p) <->
  exists a t,
    rest p = String a t /\ cset_match c a = true /\
    In e (run r {| pos := pos p + 1; rest := t; caps := caps p |}).
Proof.
  cbn [run item_ends]. rewrite in_flat_map. split.
  - intros ([k t] & Hin & He). destruct (rest p) as [|a s]; [destruct Hin|].
    destruct (cset_match c a) eqn:Ha; [|destruct Hin].
    destruct Hin as [H|[]]. injection H as <- <-. exists a, s. auto.
  - intros (a & t & Hs & Ha & He). exists (1, t). split; [|exact He].
    rewrite Hs, Ha. now left.
Qed.

Lemma in_run_lits label r : forall p e,
  In e (run (lits label r) p) <->
  exists t,
    rest p = (label ++ t)%string /\
    In e (run r {| pos := pos p + String.length label; rest := t;
                   caps := caps p |}).
Proof.
  induction label as [|c label IH]; intros p e.
  - simpl. rewrite Nat.add_0_r. split.
    + intros H. exists (rest p). split; [reflexivity|]. now destruct p.
    + intros (t & <- & H). now destruct p.
  - cbn [lits]. rewrite in_run_one. split.
    + intros (a & t & Hs & Ha & He). simpl in Ha.
      apply Ascii.eqb_eq in Ha as ->.
      apply IH in He as (t' & Ht & He). simpl in Ht, He. subst t.
      exists t'. split; [exact Hs|].
      simpl. now rewrite Nat.add_succ_r, <- Nat.add_1_r, <- Nat.add_assoc,
        (Nat.add_comm _ 1), Nat.add_assoc.
    + intros (t & Hs & He). simpl in Hs.
      exists c, (label ++ t)%string. split; [exact Hs|].
      split; [simpl; apply Ascii.eqb_refl|].
      apply IH. exists t. split; [reflexivity|]. simpl.
      simpl in He. now rewrite <- Nat.add_assoc.
Qed.

(** What a match consumes is a prefix of the text, and the position counts
    it. *)
Lemma run_consumes r : forall p e,
  In e (run r p) ->
  exists used, rest p = (used ++ rest e)%string /\
               pos e = pos p + String.length used.
Proof.
  induction r as [|c q r IH|r IH|r IH|n body IHb r IH]; intros p e.
  - intros [<-|[]]. exists EmptyString. simpl. auto.
  - destruct q.
    + rewrite in_run_one. intros (a & t & Hs & _ & He).
      apply IH in He as (used & Ht & Hp). simpl in Ht, Hp. subst t.
      exists (String a used). simpl. split; [exact Hs | lia].
    + rewrite in_run_star. intros (u & t & Hs & _ & He).
      apply IH in He as (used & Ht & Hp). simpl in Ht, Hp. subst t.
      exists (u ++ used)%string. rewrite append_assoc, length_append.
      split; [exact Hs | lia].
    + rewrite in_run_plus. intros (a & u & t & Hs & _ & _ & He).
      apply IH in He as (used & Ht & Hp). simpl in Ht, Hp. subst t.
      exists (String a (u ++ used)). simpl.
      rewrite append_assoc, length_append. split; [exact Hs | lia].
    + cbn [run item_ends]. rewrite in_flat_map. intros ([k t] & Hin & He).
      apply IH in He as (used & Ht & Hp). simpl in Ht, Hp.
      destruct (rest p) as [|a s] eqn:Hs.
      * destruct Hin as [H|[]]. injection H as <- <-.
        exists used. split; [exact Ht | lia].
      * destruct (cset_match c a).
        -- destruct Hin as [H|[H|[]]]; injection H as <- <-.
           ++ exists (String a used). simpl. rewrite Ht. split; [reflexivity | lia].
           ++ exists used. split; [exact Ht | lia].
        -- destruct Hin as [H|[]]. injection H as <- <-.
           exists used. split; [exact Ht | lia].
  - cbn [run]. destruct (pos p =? 0); [apply IH | intros []].
  - cbn [run]. destruct (at_eol (rest p)); [apply IH | intros []].
  - cbn [run]. rewrite in_flat_map. intros (e1 & H1 & He).
    apply IHb in H1 as (u1 & Hs1 & Hp1).
    apply IH in He as (u2 & Hs2 & Hp2). simpl in Hs2, Hp2.
    exists (u1 ++ u2)%string. rewrite append_assoc, length_append, <- Hs2.
    split; [exact Hs1 | lia].
Qed.

Lemma in_run_group n body r p e :
  In e (run (RGroup n body r) p) <->
  exists e1 used,
    In e1 (run body p) /\ rest p = (used ++ rest e1)%string /\
    In e (run r {| pos := pos e1; rest := rest e1;
                   caps := (n, used) :: caps e1 |}).
Proof.
  cbn [run]. rewrite in_flat_map. split.
  - intros (e1 & H1 & He).
    destruct (run_consumes _ _ _ H1) as (used & Hs & Hp).
    exists e1, used. split; [exact H1|]. split; [exact Hs|].
    replace (pos e1 - pos p) with (String.length used) in He by lia.
    now rewrite Hs, substring_prefix in He.
  - intros (e1 & used & H1 & Hs & He). exists e1. split; [exact H1|].
    destruct (run_consumes _ _ _ H1) as (used' & Hs' & Hp).
    assert (used' = used) as ->.
    { rewrite Hs in Hs'. clear - Hs'.
      assert (String.length used = String.length used') as Hlen.
      { apply (f_equal String.length) in Hs'. rewrite !length_append in Hs'. lia. }
      revert used' Hs' Hlen. induction used as [|x u IH]; intros [|y u'];
        simpl; intros H Hl; try discriminate; [reflexivity|].
      injection H as -> H. f_equal. apply IH; [exact H | lia]. }
    replace (pos e1 - pos p) with (String.length used) by lia.
    now rewrite Hs, substring_prefix.
Qed.

End Matcher.

(** ** Reading the pattern of a plain label *)

Section Reading.
Import Re.

Lemma not_special c :
  is_special c = false ->
  Ascii.eqb c "." = false /\ Ascii.eqb c "\" = false /\
  Ascii.eqb c "(" = false /\ Ascii.eqb c ")" = false /\
  Ascii.eqb c "^" = false /\ Ascii.eqb c "$" = false /\
  is_repeat_char c = false.
Proof.
  unfold is_special, is_repeat_char. rewrite !orb_false_iff. tauto.
Qed.

Lemma parse_quant_one s :
  starts_with_repeat s = false -> parse_quant s = Some (QOne, s).
Proof.
  destruct s as [|c s]; [reflexivity|]. simpl.
  unfold is_repeat_char. rewrite !orb_false_iff.
  intros (((-> & ->) & ->) & ->). reflexivity.
Qed.

Lemma plain_starts label tail :
  plain label = true ->
  starts_with_repeat tail = false ->
  starts_with_repeat (label ++ tail) = false.
Proof.
  destruct label as [|c label]; simpl; [auto|].
  unfold plain. simpl. rewrite andb_true_iff, negb_true_iff.
  intros [Hc _] _. now apply not_special in Hc.
Qed.

(** A plain label is read as its characters, one literal each. *)
Lemma parse_seq_plain label : forall k g tail,
  plain label = true ->
  starts_with_repeat tail = false ->
  parse_seq (String.length label + k) g (label ++ tail) =
  match parse_seq k g tail with
  | Some (r, g', s') => Some (lits label r, g', s')
  | None => None
  end.
Proof.
  induction label as [|c label IH]; intros k g tail Hplain Htail.
  - simpl. now destruct (parse_seq k g tail) as [[[r g'] s']|].
  - pose proof Hplain as Hc. unfold plain in Hc. simpl in Hc.
    apply andb_true_iff in Hc as [Hc Hrest]. apply negb_true_iff in Hc.
    pose proof (not_special _ Hc) as (Hdot & Hbs & Hop & Hcl & Hbol & Heol & _).
    change (String.length (String c label) + k)
      with (S (String.length label + k)).
    change (String c label ++ tail)%string with (String c (label ++ tail)).
    cbn [parse_seq]. rewrite Hcl, Hop, Hbol, Heol, Hbs, Hc, Hdot.
    cbn [andb]. rewrite (parse_quant_one _ (plain_starts _ _ Hrest Htail)).
    rewrite (IH k g tail Hrest Htail).
    now destruct (parse_seq k g tail) as [[[r g'] s']|].
Qed.

(** The pattern of line 193 for a plain label. *)
Lemma compile_attribute_pattern label :
  plain label = true ->
  compile (attribute_pattern label) =
  Some {| items := RBol (RItem CSpace QStar (lits label value_items));
          groups := 1 |}.
Proof.
  intros Hplain. unfold compile, attribute_pattern.
  set (tail := "\s*:\s*(\w+.*)$").
  assert (starts_with_repeat tail = false) as Htail by reflexivity.
  change ("^\s*" ++ label ++ tail)%string
    with (String "^" (String "\" (String "s" (String "*" (label ++ tail))))).
  cbn [String.length]. rewrite length_append.
  replace (S (S (S (S (S (String.length label + String.length tail))))))
    with (S (S (String.length label + 18)))
    by (change (String.length tail) with 15; lia).
  cbn [parse_seq].
  change (Ascii.eqb "^" ")") with false. change (Ascii.eqb "^" "(") with false.
  change (Ascii.eqb "^" "^") with true. cbn iota.
  change (starts_with_repeat (String "\" (String "s" (String "*" (label ++ tail)))))
    with false. cbn iota.
  change (Ascii.eqb "\" ")") with false. change (Ascii.eqb "\" "(") with false.
  change (Ascii.eqb "\" "^") with false. change (Ascii.eqb "\" "$") with false.
  change (Ascii.eqb "\" "\") with true. cbn iota.
  change (parse_escape "s") with (Some CSpace). cbn iota.
  cbn [parse_quant]. change (Ascii.eqb "*" "*") with true. cbn iota.
  rewrite (plain_starts _ _ Hplain Htail).
  rewrite (parse_seq_plain label 18 1 tail Hplain Htail).
  reflexivity.
Qed.

End Reading.

(** ** The shape of a matching line *)

Section Shape.
Import Re.

Lemma at_eol_no_newline s :
  no_newline s = true -> at_eol s = true -> s = EmptyString.
Proof.
  destruct s as [|c [|d s]]; simpl; try discriminate; [reflexivity|].
  unfold no_newline. simpl. destruct (Chars.is_newline c); discriminate.
Qed.

Lemma lstrip_tail ws2 ws3 w rest :
  blank ws2 = true -> blank ws3 = true -> Chars.is_word w = true ->
  lstrip (ws2 ++ ":" ++ ws3 ++ String w rest)
  = String ":" (ws3 ++ String w rest) /\
  after_colon (ws2 ++ ":" ++ ws3 ++ String w rest) = String w rest.
Proof.
  intros H2 H3 Hw.
  assert (lstrip (ws2 ++ ":" ++ ws3 ++ String w rest)
          = String ":" (ws3 ++ String w rest)) as Hl.
  { rewrite (lstrip_blank _ _ H2). reflexivity. }
  split; [exact Hl|]. unfold after_colon. rewrite Hl.
  rewrite (lstrip_blank _ _ H3). apply lstrip_nonspace.
  now apply word_is_not_space.
Qed.

(** A line states an attribute with one value at most. *)
Lemma attribute_line_unique label line v1 v2 :
  attribute_line label line v1 -> attribute_line label line v2 -> v1 = v2.
Proof.
  intros (a1 & a2 & a3 & w & r & Hline & Ha1 & Ha2 & Ha3 & Hw & ->)
         (b1 & b2 & b3 & x & s & Hline' & Hb1 & Hb2 & Hb3 & Hx & ->).
  destruct (lstrip_tail a2 a3 w r Ha2 Ha3 Hw) as [Hla Hva].
  destruct (lstrip_tail b2 b3 x s Hb2 Hb3 Hx) as [Hlb Hvb].
  rewrite <- Hva, <- Hvb.
  assert (lstrip (label ++ a2 ++ ":" ++ a3 ++ String w r)
          = lstrip (label ++ b2 ++ ":" ++ b3 ++ String x s)) as Hl.
  { rewrite <- (lstrip_blank a1 (label ++ a2 ++ ":" ++ a3 ++ String w r) Ha1).
    rewrite <- (lstrip_blank b1 (label ++ b2 ++ ":" ++ b3 ++ String x s) Hb1).
    now rewrite <- Hline, <- Hline'. }
  destruct (blank_or_not label) as [Hblank|(ws & c & l' & -> & Hws & Hc)].
  - rewrite !(lstrip_blank label _ Hblank) in Hl.
    unfold after_colon. now rewrite Hl.
  - rewrite !append_assoc in Hl. rewrite !(lstrip_blank ws _ Hws) in Hl.
    simpl in Hl. rewrite Hc in Hl. injection Hl as Hl.
    apply append_inv_head in Hl. simpl. now rewrite Hl.
Qed.

Lemma run_bol_start r line :
  run (RBol r) (start_of line) = run r (start_of line).
Proof. reflexivity. Qed.

Lemma run_attribute_sound label line e :
  no_newline line = true ->
  In e (run (attribute_items label) (start_of line)) ->
  exists v, attribute_line label line v /\ caps e = [(1, v)].
Proof.
  intros Hnl. unfold attribute_items. rewrite run_bol_start.
  rewrite in_run_star. intros (ws1 & t1 & Hs1 & H1 & He).
  cbn [rest start_of] in Hs1.
  apply in_run_lits in He as (t2 & Hs2 & He). cbn [rest] in Hs2.
  unfold value_items in He.
  apply in_run_star in He as (ws2 & t3 & Hs3 & H2 & He). cbn [rest] in Hs3.
  apply in_run_one in He as (a & t4 & Hs4 & Ha & He). cbn [rest] in Hs4.
  simpl in Ha. apply Ascii.eqb_eq in Ha as ->.
  apply in_run_star in He as (ws3 & t5 & Hs5 & H3 & He). cbn [rest] in Hs5.
  apply in_run_group in He as (e1 & used & Hb & Hs6 & He). cbn [rest] in Hs6.
  apply in_run_plus in Hb as (w & u & t6 & Hs7 & Hw & _ & Hb).
  cbn [rest] in Hs7. simpl in Hw.
  apply in_run_star in Hb as (any & t7 & Hs8 & _ & Hb). cbn [rest] in Hs8.
  cbn [run caps] in Hb. destruct Hb as [<-|[]]. cbn [rest caps pos] in *.
  cbn [run rest] in He.
  destruct (at_eol t7) eqn:Heol; [|destruct He].
  destruct He as [<-|[]]. cbn [caps].
  subst t6 t4 t3 t2 t1.
  assert (t7 = EmptyString) as ->.
  { apply at_eol_no_newline; [|exact Heol].
    unfold no_newline in *. rewrite Hs1, Hs7 in Hnl.
    repeat (rewrite ?all_chars_append in Hnl; cbn [all_chars] in Hnl;
            rewrite ?andb_true_iff in Hnl).
    tauto. }
  rewrite append_nil_r in Hs6. subst used.
  exists t5. split; [|reflexivity].
  exists ws1, ws2, ws3, w, (u ++ any ++ EmptyString)%string.
  rewrite Hs1. repeat split; try assumption.
  now rewrite Hs7.
Qed.

Lemma run_attribute_complete label line v :
  no_newline line = true ->
  attribute_line label line v ->
  exists e, In e (run (attribute_items label) (start_of line)).
Proof.
  intros Hnl (ws1 & ws2 & ws3 & w & r & -> & H1 & H2 & H3 & Hw & ->).
  assert (all_chars (cset_match CAny) r = true) as Hany.
  { unfold no_newline in Hnl.
    repeat (rewrite ?all_chars_append in Hnl; cbn [all_chars] in Hnl;
            rewrite ?andb_true_iff in Hnl).
    tauto. }
  eexists. unfold attribute_items, value_items. rewrite run_bol_start.
  apply in_run_star. exists ws1. eexists. split; [reflexivity|].
  split; [exact H1|].
  apply in_run_lits. eexists. split; [reflexivity|].
  apply in_run_star. exists ws2. eexists. split; [reflexivity|].
  split; [exact H2|].
  apply in_run_one. exists ":"%char. eexists. split; [reflexivity|].
  split; [reflexivity|].
  apply in_run_star. exists ws3. eexists. split; [reflexivity|].
  split; [exact H3|].
  apply in_run_group.
  eexists {| pos := _; rest := EmptyString; caps := _ |}.
  exists (String w r). cbn [rest]. split; [|split].
  - apply in_run_plus. exists w, EmptyString, r. cbn [rest].
    split; [reflexivity|]. split; [exact Hw|]. split; [reflexivity|].
    apply in_run_star. exists r, EmptyString. cbn [rest].
    split; [now rewrite append_nil_r|]. split; [exact Hany|].
    cbn [run]. left. reflexivity.
  - now rewrite append_nil_r.
  - cbn [run rest at_eol]. left. reflexivity.
Qed.

(** What [re.match] gives for the pattern of a plain label, on a line
    without a newline. *)
Lemma attribute_match label line :
  plain label = true ->
  no_newline line = true ->
  (forall v, attribute_line label line v ->
             exists m, re_match (attribute_pattern label) line = Ok (Some m) /\
                       group m 1 = Ok (Some v)) /\
  ((forall v, ~ attribute_line label line v) ->
   re_match (attribute_pattern label) line = Ok None).
Proof.
  intros Hplain Hnl. unfold re_match.
  rewrite (compile_attribute_pattern _ Hplain). unfold match_compiled.
  cbn [items groups]. fold (attribute_items label). fold (start_of line).
  split.
  - intros v Hv.
    destruct (run (attribute_items label) (start_of line)) as [|e es] eqn:Hrun.
    + destruct (run_attribute_complete _ _ _ Hnl Hv) as (e & He).
      rewrite Hrun in He. destruct He.
    + assert (In e (run (attribute_items label) (start_of line))) as He
        by (rewrite Hrun; now left).
      apply (run_attribute_sound _ _ _ Hnl) in He as (v' & Hv' & Hcaps).
      rewrite (attribute_line_unique _ _ _ _ Hv Hv').
      eexists. split; [reflexivity|]. unfold group. cbn [m_groups m_caps].
      rewrite Hcaps. reflexivity.
  - intros Hnone.
    destruct (run (attribute_items label) (start_of line)) as [|e es] eqn:Hrun;
      [reflexivity|].
    assert (In e (run (attribute_items label) (start_of line))) as He
      by (rewrite Hrun; now left).
    apply (run_attribute_sound _ _ _ Hnl) in He as (v' & Hv' & _).
    now elim (Hnone v').
Qed.

End Shape.

(** ** Fuel of the pattern reader *)

Section Fuel.
Import Re.

Lemma parse_quant_rest s q s' :
  parse_quant s = Some (q, s') -> String.length s' <= String.length s.
Proof.
  destruct s as [|c s]; simpl.
  - intros H; injection H as <- <-. simpl. lia.
  - repeat match goal with
           | |- context [if ?b then _ else _] => destruct b
           end;
      intros H; try discriminate; injection H as <- <-; simpl; lia.
Qed.

(** What the reader leaves unread is no longer than what it was given. *)
Lemma parse_seq_rest fuel : forall g s r g' s',
  parse_seq fuel g s = Some (r, g', s') ->
  String.length s' <= String.length s.
Proof.
  induction fuel as [|fuel IH]; intros g s r g' s'; [discriminate|].
  destruct s as [|c s1]; cbn [parse_seq].
  - intros H; injection H as <- <- <-. simpl. lia.
  - destruct (Ascii.eqb c ")").
    { intros H; injection H as <- <- <-. simpl. lia. }
    destruct (Ascii.eqb c "(").
    { destruct (starts_with_repeat s1); [discriminate|].
      destruct (parse_seq fuel (S g) s1) as [[[body g1] [|d s2]]|] eqn:Hb;
        try discriminate.
      destruct (Ascii.eqb d ")") eqn:Hd.
      - apply Ascii.eqb_eq in Hd as ->.
        destruct (starts_with_repeat s2); [discriminate|].
        destruct (parse_seq fuel g1 s2) as [[[r2 g2] s3]|] eqn:Hr;
          [|discriminate].
        intros H; injection H as <- <- <-.
        apply IH in Hb. apply IH in Hr. simpl in *. lia.
      - destruct d as [[] [] [] [] [] [] [] []]; try discriminate. }
    destruct (Ascii.eqb c "^").
    { destruct (starts_with_repeat s1); [discriminate|].
      destruct (parse_seq fuel g s1) as [[[r2 g2] s3]|] eqn:Hr; [|discriminate].
      intros H; injection H as <- <- <-. apply IH in Hr. simpl. lia. }
    destruct (Ascii.eqb c "$").
    { destruct (starts_with_repeat s1); [discriminate|].
      destruct (parse_seq fuel g s1) as [[[r2 g2] s3]|] eqn:Hr; [|discriminate].
      intros H; injection H as <- <- <-. apply IH in Hr. simpl. lia. }
    destruct (Ascii.eqb c "\").
    { destruct s1 as [|e s2]; [discriminate|].
      destruct (parse_escape e); [|discriminate].
      destruct (parse_quant s2) as [[q s3]|] eqn:Hq; [|discriminate].
      destruct (parse_seq fuel g s3) as [[[r2 g2] s4]|] eqn:Hr; [|discriminate].
      intros H; injection H as <- <- <-.
      apply IH in Hr. apply parse_quant_rest in Hq. simpl in *. lia. }
    destruct (is_special c && negb (Ascii.eqb c ".")); [discriminate|].
    destruct (parse_quant s1) as [[q s2]|] eqn:Hq; [|discriminate].
    destruct (parse_seq fuel g s2) as [[[r2 g2] s3]|] eqn:Hr; [|discriminate].
    intros H; injection H as <- <- <-.
    apply IH in Hr. apply parse_quant_rest in Hq. simpl in *. lia.
Qed.

(** Fuel beyond the length of the pattern changes nothing: [compile] never
    gives a pattern up for want of fuel. *)
Lemma parse_seq_fuel f1 : forall f2 g s,
  String.length s < f1 -> f1 <= f2 ->
  parse_seq f1 g s = parse_seq f2 g s.
Proof.
  induction f1 as [|f1 IH]; intros f2 g s Hlen Hle; [lia|].
  destruct f2 as [|f2]; [lia|].
  destruct s as [|c s1]; cbn [parse_seq]; [reflexivity|].
  simpl in Hlen.
  destruct (Ascii.eqb c ")"); [reflexivity|].
  destruct (Ascii.eqb c "(").
  { destruct (starts_with_repeat s1); [reflexivity|].
    rewrite (IH f2 (S g) s1) by lia.
    destruct (parse_seq f2 (S g) s1) as [[[body g1] [|d s2]]|] eqn:Hb;
      try reflexivity.
    apply parse_seq_rest in Hb. simpl in Hb.
    rewrite (IH f2 g1 s2) by lia. reflexivity. }
  destruct (Ascii.eqb c "^").
  { destruct (starts_with_repeat s1); [reflexivity|].
    now rewrite (IH f2 g s1) by lia. }
  destruct (Ascii.eqb c "$").
  { destruct (starts_with_repeat s1); [reflexivity|].
    now rewrite (IH f2 g s1) by lia. }
  destruct (Ascii.eqb c "\").
  { destruct s1 as [|e s2]; [reflexivity|].
    destruct (parse_escape e); [|reflexivity].
    destruct (parse_quant s2) as [[q s3]|] eqn:Hq; [|reflexivity].
    apply parse_quant_rest in Hq. simpl in Hlen.
    now rewrite (IH f2 g s3) by lia. }
  destruct (is_special c && negb (Ascii.eqb c ".")); [reflexivity|].
  destruct (parse_quant s1) as [[q s2]|] eqn:Hq; [|reflexivity].
  apply parse_quant_rest in Hq.
  now rewrite (IH f2 g s2) by lia.
Qed.

End Fuel.

(** ** Checks that scan any text *)

Lemma pattern_ok_match p s :
  pattern_ok p = true ->
  Re.re_match p s = Ok None \/
  exists m g, Re.re_match p s = Ok (Some m) /\ Re.group m 1 = Ok g.
Proof.
  unfold pattern_ok, Re.re_match, Re.match_compiled, Re.group.
  destruct (Re.compile p) as [cp|]; [|discriminate]. intros Hg.
  destruct (Re.run _ _) as [|e es]; [now left|].
  right. eexists. eexists. split; [reflexivity|].
  cbn [Re.m_groups]. rewrite Hg. reflexivity.
Qed.

Lemma try_rule_total line l v ms rule :
  rule_ok rule = true -> exists ms', try_rule line l v ms rule = Ok ms'.
Proof.
  unfold rule_ok, try_rule.
  destruct rule as [|a [|m [|e [|x rule]]]]; try discriminate.
  intros Hp.
  destruct (pattern_ok_match _ line Hp) as [->|(mo & g & -> & Hg)];
    cbn [bind]; rewrite ?Hg; cbn [bind]; eauto.
Qed.

Lemma try_rules_total line l v rules :
  forallb rule_ok rules = true ->
  forall ms, exists ms', for_each (try_rule line l v) rules ms = Ok ms'.
Proof.
  induction rules as [|rule rules IH]; simpl; intros H ms; [eauto|].
  apply andb_true_iff in H as [Hr Hrs].
  destruct (try_rule_total line l v ms rule Hr) as (ms1 & ->). cbn [bind].
  now apply IH.
Qed.

Lemma scan_line_total chk st line :
  check_ok chk = true -> exists st', scan_line chk st line = Ok st'.
Proof.
  unfold check_ok, scan_line, update_separator.
  rewrite andb_true_iff. intros [Hrules Hsep].
  destruct (separator chk) as [sd|].
  - destruct (pattern_ok_match _ line Hsep) as [->|(mo & g & -> & Hg)];
      cbn [bind]; rewrite ?Hg; cbn [bind].
    + destruct (try_rules_total line (sep_label st) (sep_value st)
                  (values chk) Hrules (metrics st)) as (ms & ->).
      cbn [bind]. eauto.
    + destruct (try_rules_total line (Some (label sd)) g
                  (values chk) Hrules (metrics st)) as (ms & ->).
      cbn [bind]. eauto.
  - cbn [bind].
    destruct (try_rules_total line (sep_label st) (sep_value st)
                (values chk) Hrules (metrics st)) as (ms & ->).
    cbn [bind]. eauto.
Qed.

Lemma scan_lines_total chk lines :
  check_ok chk = true ->
  forall st, exists st', for_each (scan_line chk) lines st = Ok st'.
Proof.
  intros Hok. induction lines as [|line lines IH]; simpl; intros st; [eauto|].
  destruct (scan_line_total chk st line Hok) as (st1 & ->). cbn [bind].
  apply IH.
Qed.

Lemma debug_checks_total w cfg chks :
  forallb check_ok chks = true ->
  (forall chk, In chk chks ->
               read_text w (path_join "mocks" (test chk)) <> None) ->
  forall a gathered,
    debug a = true ->
    exists ms, for_each (run_check w a cfg) chks gathered = Ok ms.
Proof.
  induction chks as [|chk chks IH]; simpl; intros Hok Hread a gathered Hd;
    [eauto|].
  apply andb_true_iff in Hok as [Hc Hcs].
  unfold run_check at 1, fetch. rewrite Hd.
  destruct (read_text w (path_join "mocks" (test chk))) as [text|] eqn:Ht.
  - cbn [bind].
    destruct (scan_lines_total chk (splitlines text) Hc
                {| sep_value := None; sep_label := None; metrics := gathered |})
      as (st & ->).
    cbn [bind]. apply IH; auto.
  - exfalso. apply (Hread chk); [now left | exact Ht].
Qed.

(** * The claims *)

(** ** C1 *)

(** C1. Every record a check adds comes from a line of the check's text and
    a rule of the check whose pattern matched that line; its value is the
    text of the pattern's first group as captured, its status is 0 when that
    text is the rule's expected value, character for character, and 1
    otherwise. *)
Theorem status_compares_observed_with_expected :
  forall w a cfg gathered chk text ms,
    fetch w a cfg chk = Ok text ->
    run_check w a cfg gathered chk = Ok ms ->
    exists recs,
      ms = gathered ++ recs /\
      forall r, In r recs ->
        exists line attribute_name expected_value m,
          In line (splitlines text) /\
          In [attribute_name; metric_name r; expected_value] (values chk) /\
          Re.re_match (attribute_pattern attribute_name) line = Ok (Some m) /\
          Re.group m 1 = Ok (value r) /\
          (value r = Some expected_value -> status r = 0%Z) /\
          (value r <> Some expected_value -> status r = 1%Z).
Proof.
  intros w a cfg gathered chk text ms Hf Hrun.
  exists (scan_records chk [] (splitlines text)).
  split; [now apply (run_check_records _ _ _ _ _ _ _ Hf Hrun)|].
  intros r Hr.
  apply scan_records_in in Hr as (before & line & Hline & _ & Hr).
  unfold line_records in Hr. apply in_flat_map in Hr as (rule & Hrule & Hr).
  apply rule_records_inv in Hr as (an & ev & m & -> & Hm & Hg & Hs).
  exists line, an, ev, m. repeat split; try assumption.
  - intros Heq. rewrite Hs, (differs_false _ _ Heq). reflexivity.
  - intros Hne. rewrite Hs, (differs_true _ _ Hne). reflexivity.
Qed.

Lemma status_compares_observed_with_expected_witness :
  exists recs,
    [ {| metric_name := "controller_has_error"; separator_label := None;
         separator_value := None; status := 1; value := Some "optimal" |} ]
    = [] ++ recs /\
    forall r, In r recs ->
      exists line attribute_name expected_value m,
        In line (splitlines "  Controller Status   : optimal") /\
        In [attribute_name; metric_name r; expected_value]
           (values (nth 0 arcconf_checks physical_device_check)) /\
        Re.re_match (attribute_pattern attribute_name) line = Ok (Some m) /\
        Re.group m 1 = Ok (value r) /\
        (value r = Some expected_value -> status r = 0%Z) /\
        (value r <> Some expected_value -> status r = 1%Z).
Proof.
  apply (status_compares_observed_with_expected
           (mock_world [ ("mocks/arcconf/ad.txt",
                          "  Controller Status   : optimal") ])
           (debug_run "arcconf") arcconf_config []
           (nth 0 arcconf_checks physical_device_check)
           "  Controller Status   : optimal").
  - reflexivity.
  - vm_compute. reflexivity.
Defined.

(** ** C2 *)

(** C2 fails on the arcconf profile.  The label is spliced into the pattern
    as it is, so the dots of [S.M.A.R.T. warnings] stand for any character:
    a line with other characters in their place matches the rule and gives
    a record.  The megacli catalogue escapes its dots by hand, and there
    such a line does not match. *)
Theorem unescaped_dots_match_any_character :
  In ["S.M.A.R.T. warnings"; "drive_has_smart_warnings"; "0"]
     (values physical_device_check) /\
  try_rule "         SxMxAxRxTx warnings                : 0" None None []
           ["S.M.A.R.T. warnings"; "drive_has_smart_warnings"; "0"]
  = Ok [ {| metric_name := "drive_has_smart_warnings";
            separator_label := None; separator_value := None;
            status := 0; value := Some "0" |} ] /\
  try_rule "Drive has flagged a SxMxAxRxT alert : No" None None []
           ["Drive has flagged a S\.M\.A\.R\.T alert"; "smart_alert"; "No"]
  = Ok [] /\
  try_rule "Drive has flagged a S.M.A.R.T alert : No" None None []
           ["Drive has flagged a S\.M\.A\.R\.T alert"; "smart_alert"; "No"]
  = Ok [ {| metric_name := "smart_alert";
            separator_label := None; separator_value := None;
            status := 0; value := Some "No" |} ].
Proof.
  split; [simpl; tauto|]. vm_compute. repeat split; reflexivity.
Qed.

(** ** C3 *)

(** C3. In a check with a separator, the records of a line carry as group
    value the first group of the nearest line, among the lines of the same
    check's text up to and including that line, that matches the separator
    pattern, and no group value when no such line matches.  The records a
    check adds depend on its own text only: what was gathered before is
    kept in front of them as it is. *)
Theorem group_value_is_nearest_separator :
  forall w a cfg gathered chk sd text ms seen line rest,
    separator chk = Some sd ->
    fetch w a cfg chk = Ok text ->
    run_check w a cfg gathered chk = Ok ms ->
    splitlines text = seen ++ line :: rest ->
    ms = gathered ++ scan_records chk [] seen ++ line_records chk seen line
                  ++ scan_records chk (seen ++ [line]) rest /\
    forall r, In r (line_records chk seen line) ->
      ((forall l, In l (seen ++ [line]) -> separator_hit (regex sd) l = None) ->
       separator_value r = None) /\
      (forall pre l post g,
         seen ++ [line] = pre ++ l :: post ->
         separator_hit (regex sd) l = Some g ->
         (forall l', In l' post -> separator_hit (regex sd) l' = None) ->
         separator_value r = g).
Proof.
  intros w a cfg gathered chk sd text ms seen line rest Hsep Hf Hrun Hlines.
  split.
  - rewrite (run_check_records _ _ _ _ _ _ _ Hf Hrun), Hlines.
    rewrite scan_records_app. reflexivity.
  - intros r Hr. apply line_records_group in Hr as [_ Hv].
    unfold group_value_at in Hv. rewrite Hsep in Hv. split.
    + intros Hnone. now rewrite (nearest_separator_none _ _ Hnone) in Hv.
    + intros pre l post g Hsplit Hl Hpost.
      now rewrite Hsplit, (nearest_separator_last _ pre _ _ _ Hl Hpost) in Hv.
Qed.

Lemma group_value_is_nearest_separator_witness :
  let seen := [ "Controllers found: 1"; "Physical Device information";
                "      Device #0";
                "         State                              : Online";
                "         S.M.A.R.T. warnings                : 0";
                "      Device #1" ] in
  let line := "         State                              : Failed" in
  let rest := [ "         S.M.A.R.T. warnings                : 2" ] in
  let chk := physical_device_check in
  scan_records chk [] (splitlines pd_text)
  = [] ++ scan_records chk [] seen ++ line_records chk seen line
       ++ scan_records chk (seen ++ [line]) rest /\
  forall r, In r (line_records chk seen line) ->
    ((forall l, In l (seen ++ [line]) ->
        separator_hit "\s+Device #(\d+)" l = None) ->
     separator_value r = None) /\
    (forall pre l post g,
       seen ++ [line] = pre ++ l :: post ->
       separator_hit "\s+Device #(\d+)" l = Some g ->
       (forall l', In l' post -> separator_hit "\s+Device #(\d+)" l' = None) ->
       separator_value r = g).
Proof.
  intros seen line rest chk.
  apply (group_value_is_nearest_separator
           pd_world (debug_run "arcconf") arcconf_config []
           chk {| regex := "\s+Device #(\d+)"; label := "device" |}
           pd_text (scan_records chk [] (splitlines pd_text))
           seen line rest).
  - reflexivity.
  - reflexivity.
  - vm_compute. reflexivity.
  - vm_compute. reflexivity.
Defined.

(** What the sample text gives: the group value follows the device lines. *)
Example pd_text_groups :
  map (fun r => (metric_name r, separator_value r, status r))
      (scan_records physical_device_check [] (splitlines pd_text))
  = [ ("drive_offline", Some "0", 0%Z);
      ("drive_has_smart_warnings", Some "0", 0%Z);
      ("drive_offline", Some "1", 1%Z);
      ("drive_has_smart_warnings", Some "1", 1%Z) ].
Proof. vm_compute. reflexivity. Qed.

(** ** C4 *)

(** The arcconf profile has only such checks, the megacli profile none:
    with its mock files readable, a debug run of arcconf ends without an
    exception on any text. *)
Lemma arcconf_debug_run_total w :
  (forall chk, In chk arcconf_checks ->
               read_text w (path_join "mocks" (test chk)) <> None) ->
  forallb check_ok arcconf_checks = true /\
  existsb check_ok megacli_checks = false /\
  exists ms, collect_metrics w (debug_run "arcconf") = Ok ms.
Proof.
  intros Hread.
  assert (forallb check_ok arcconf_checks = true) as Hok
    by (vm_compute; reflexivity).
  split; [exact Hok|]. split; [vm_compute; reflexivity|].
  unfold collect_metrics. cbn -[for_each arcconf_checks].
  now apply debug_checks_total.
Qed.


(** C4 fails on the megacli profile.  Its rules are lists of two strings
    and the loop of line 192 unpacks three: in a debug run and in a live run
    alike, once the text of the first check has a line the run ends in a
    [ValueError], with exit status 1 and no metric line. *)
Theorem megacli_rules_do_not_unpack :
  forall w a text,
    vendor_binary a = "megacli" ->
    (debug a = false -> isfile w (path megacli_config) = true) ->
    fetch w a megacli_config enclosure_check = Ok text ->
    splitlines text <> [] ->
    collect_metrics w a = Raise ValueError /\
    main w a = {| printed := []; exit_status := 1 |}.
Proof.
  intros w a text Hbin Hfile Hfetch Hlines.
  assert (collect_metrics w a = Raise ValueError) as Hc.
  { unfold collect_metrics. rewrite Hbin.
    change (String.length "megacli" =? 0) with false. cbn [bind].
    change (dict_get "megacli" BINARIES) with (Some megacli_config).
    cbv iota beta.
    assert (negb (debug a) && negb (isfile w (path megacli_config)) = false)
      as ->.
    { destruct (debug a); [reflexivity|]. now rewrite Hfile. }
    change (checks megacli_config)
      with (enclosure_check :: tl megacli_checks).
    cbn [for_each]. unfold run_check at 1. rewrite Hfetch. cbn [bind].
    destruct (splitlines text) as [|line lines]; [now elim Hlines|].
    reflexivity. }
  split; [exact Hc|]. exact (main_of_raise _ _ _ Hc).
Qed.

Lemma megacli_rules_do_not_unpack_witness :
  collect_metrics (mock_world [ ("mocks/megacli/enc.txt",
                                 "    Status              : Normal") ])
                  (debug_run "megacli") = Raise ValueError /\
  main (mock_world [ ("mocks/megacli/enc.txt",
                      "    Status              : Normal") ])
       (debug_run "megacli") = {| printed := []; exit_status := 1 |}.
Proof.
  apply (megacli_rules_do_not_unpack
           (mock_world [ ("mocks/megacli/enc.txt",
                          "    Status              : Normal") ])
           (debug_run "megacli")
           "    Status              : Normal").
  - reflexivity.
  - discriminate.
  - reflexivity.
  - discriminate.
Defined.

(** The same in a live run, with a binary that answers the first check. *)
Example megacli_live_run_raises :
  main {| isfile := fun _ => true;
          read_text := fun _ => None;
          run_command := fun _ => Some (0%Z, "    Status : Normal") |}
       (live_run "megacli")
  = {| printed := []; exit_status := 1 |}.
Proof. vm_compute. reflexivity. Qed.

(** ** C5 *)

(** C5, as the code has it.  For a line of an ASCII text and a rule with a
    plain ASCII label, the rule gives a record exactly when the line is
    optional whitespace, the label, optional whitespace, a colon, optional
    whitespace, and then a word character (a letter, a digit or the
    underscore) followed by the rest of the line; the observed value is
    that rest of the line from the word character on.  A line of another
    shape gives no record.  (Outside ASCII Python's classes are wider than
    those of [Chars], and the theorem says nothing.) *)
Theorem attribute_line_matches_exactly :
  forall text line label metric expected l v ms,
    is_ascii text = true ->
    is_ascii label = true ->
    In line (splitlines text) ->
    plain label = true ->
    (forall observed,
        attribute_line label line observed ->
        try_rule line l v ms [label; metric; expected]
        = Ok (ms ++ [ {| metric_name := metric;
                         separator_label := l;
                         separator_value := v;
                         status := int_of_bool (differs (Some observed) expected);
                         value := Some observed |} ])) /\
    ((forall observed, ~ attribute_line label line observed) ->
     try_rule line l v ms [label; metric; expected] = Ok ms).
Proof.
  intros text line label metric expected l v ms _ _ Hline Hplain.
  assert (no_newline line = true) as Hnl.
  { apply splitlines_no_linebreak in Hline. unfold no_newline.
    revert Hline. apply all_chars_impl. intros c Hc.
    apply negb_true_iff. apply negb_true_iff in Hc.
    destruct (Chars.is_newline c) eqn:Hn; [|reflexivity].
    apply newline_is_linebreak in Hn. congruence. }
  destruct (attribute_match label line Hplain Hnl) as [Hyes Hno].
  unfold try_rule. split.
  - intros observed Hshape. destruct (Hyes _ Hshape) as (m & -> & Hg).
    cbn [bind]. rewrite Hg. reflexivity.
  - intros Hnone. rewrite (Hno Hnone). reflexivity.
Qed.

Lemma attribute_line_matches_exactly_witness :
  let line := "         State                  : Online, Spun Up" in
  (forall observed,
      attribute_line "State" line observed ->
      try_rule line None None [] ["State"; "drive_offline"; "Online"]
      = Ok ([] ++ [ {| metric_name := "drive_offline";
                       separator_label := None;
                       separator_value := None;
                       status := int_of_bool (differs (Some observed) "Online");
                       value := Some observed |} ])) /\
  ((forall observed, ~ attribute_line "State" line observed) ->
   try_rule line None None [] ["State"; "drive_offline"; "Online"] = Ok []).
Proof.
  intros line.
  apply (attribute_line_matches_exactly
           (unlines [ "      Device #0"; line ]) line
           "State" "drive_offline" "Online" None None []).
  - reflexivity.
  - reflexivity.
  - simpl. right. left. reflexivity.
  - reflexivity.
Defined.

(** The sample line has the shape, with the value the matcher reports. *)
Example sample_attribute_line :
  attribute_line "State" "         State                  : Online, Spun Up"
                 "Online, Spun Up" /\
  try_rule "         State                  : Online, Spun Up" None None []
           ["State"; "drive_offline"; "Online"]
  = Ok [ {| metric_name := "drive_offline"; separator_label := None;
            separator_value := None; status := 1;
            value := Some "Online, Spun Up" |} ].
Proof.
  split; [|vm_compute; reflexivity].
  exists "         ", "                  ", " ", "O"%char, "nline, Spun Up".
  repeat split; reflexivity.
Qed.

(** C5 as stated fails: a value that starts with a parenthesis or a minus
    sign has the stated shape, and the rule gives no record for it. *)
Lemma value_must_start_with_word_character :
  stated_attribute_line "State" "State : (unknown)" "(unknown)" /\
  try_rule "State : (unknown)" None None []
           ["State"; "drive_offline"; "Online"] = Ok [] /\
  stated_attribute_line "Media Failures" "Media Failures : -1" "-1" /\
  try_rule "Media Failures : -1" None None []
           ["Media Failures"; "drive_has_media_failures"; "0"] = Ok [].
Proof.
  split; [|split; [|split]].
  - exists EmptyString, " ", " ", "("%char, "unknown)".
    repeat split; reflexivity.
  - vm_compute. reflexivity.
  - exists EmptyString, " ", " ", "-"%char, "1".
    repeat split; reflexivity.
  - vm_compute. reflexivity.
Qed.

(** ** C6 *)

(** C6, as the code has it.  In a live run, a check whose command gives no
    output or ends with a status other than zero ends the whole run: no
    metric line is printed, the exit status is 1, and the run is the run of
    the checks up to that one, the later checks playing no part.  In a
    debug run an empty mock file is no error. *)
Theorem live_failure_aborts_run :
  forall w a cfg chk rc out,
    debug a = false ->
    dict_get (vendor_binary a) BINARIES = Some cfg ->
    In chk (checks cfg) ->
    run_command w (path cfg :: args chk) = Some (rc, out) ->
    out = EmptyString \/ rc <> 0%Z ->
    main w a = {| printed := []; exit_status := 1 |} /\
    forall pre post gathered,
      checks cfg = pre ++ chk :: post ->
      (exists e, for_each (run_check w a cfg) (pre ++ [chk]) gathered = Raise e) /\
      for_each (run_check w a cfg) (checks cfg) gathered
      = for_each (run_check w a cfg) (pre ++ [chk]) gathered.
Proof.
  intros w a cfg chk rc out Hd Hcfg Hin Hrun Hbad.
  pose proof (fetch_live_failure w a cfg chk rc out Hd Hrun Hbad) as Hf.
  split.
  - destruct (collect_metrics w a) as [ms|e] eqn:Hc;
      [|exact (main_of_raise _ _ _ Hc)].
    exfalso. unfold collect_metrics in Hc.
    destruct (String.length (vendor_binary a) =? 0); cbn [bind] in Hc;
      [discriminate|].
    rewrite Hcfg in Hc.
    destruct (negb (debug a) && negb (isfile w (path cfg))); [discriminate|].
    destruct (run_checks_failure w a cfg chk (checks cfg) Hin Hf []) as (e & He).
    rewrite He in Hc. discriminate.
  - intros pre post gathered Hsplit.
    assert (exists e, for_each (run_check w a cfg) (pre ++ [chk]) gathered
                      = Raise e) as (e & He).
    { apply run_checks_failure with (chk := chk); [|exact Hf].
      apply in_or_app. right. now left. }
    split; [now exists e|].
    rewrite He, Hsplit.
    replace (pre ++ chk :: post) with ((pre ++ [chk]) ++ post)
      by now rewrite <- app_assoc.
    rewrite for_each_app, He. reflexivity.
Qed.

Lemma live_failure_aborts_run_witness :
  main failing_binary_world (live_run "arcconf")
  = {| printed := []; exit_status := 1 |} /\
  forall pre post gathered,
    checks arcconf_config
    = pre ++ nth 1 arcconf_checks physical_device_check :: post ->
    (exists e,
       for_each (run_check failing_binary_world (live_run "arcconf")
                           arcconf_config)
                (pre ++ [nth 1 arcconf_checks physical_device_check]) gathered
       = Raise e) /\
    for_each (run_check failing_binary_world (live_run "arcconf") arcconf_config)
             (checks arcconf_config) gathered
    = for_each (run_check failing_binary_world (live_run "arcconf")
                          arcconf_config)
               (pre ++ [nth 1 arcconf_checks physical_device_check]) gathered.
Proof.
  apply (live_failure_aborts_run failing_binary_world (live_run "arcconf")
           arcconf_config (nth 1 arcconf_checks physical_device_check)
           0%Z EmptyString).
  - reflexivity.
  - reflexivity.
  - simpl. right. left. reflexivity.
  - reflexivity.
  - left. reflexivity.
Defined.

(** C6 as stated fails in a debug run: with an empty mock file for the
    first check the run goes on, the later checks give their records, they
    are printed and the exit status is 0. *)
Lemma empty_mock_file_does_not_abort :
  let w := mock_world
             [ ("mocks/arcconf/ad.txt", EmptyString);
               ("mocks/arcconf/ld.txt", "Status of Logical Device : Optimal");
               ("mocks/arcconf/pd.txt", EmptyString) ] in
  fetch w (debug_run "arcconf") arcconf_config
        (nth 0 arcconf_checks physical_device_check) = Ok EmptyString /\
  collect_metrics w (debug_run "arcconf")
  = Ok [ {| metric_name := "logical_device_has_error";
            separator_label := None; separator_value := None;
            status := 0; value := Some "Optimal" |} ] /\
  List.length (printed (main w (debug_run "arcconf"))) = 1 /\
  exit_status (main w (debug_run "arcconf")) = 0%Z.
Proof.
  vm_compute. repeat split; reflexivity.
Qed.

(** ** C7 *)

(** C7, as the code has it.  The records of a line carry the separator's
    label when some line of the same check's text, up to and including that
    line, has matched the separator pattern, and no label otherwise: in a
    check without a separator, and in a check with one before its first
    separator line. *)
Theorem group_label_set_by_first_separator_line :
  forall w a cfg gathered chk text ms seen line rest,
    fetch w a cfg chk = Ok text ->
    run_check w a cfg gathered chk = Ok ms ->
    splitlines text = seen ++ line :: rest ->
    ms = gathered ++ scan_records chk [] seen ++ line_records chk seen line
                  ++ scan_records chk (seen ++ [line]) rest /\
    forall r, In r (line_records chk seen line) ->
      match separator chk with
      | None => separator_label r = None
      | Some sd =>
          ((exists l g, In l (seen ++ [line]) /\
                        separator_hit (regex sd) l = Some g) ->
           separator_label r = Some (label sd)) /\
          ((forall l, In l (seen ++ [line]) ->
                      separator_hit (regex sd) l = None) ->
           separator_label r = None)
      end.
Proof.
  intros w a cfg gathered chk text ms seen line rest Hf Hrun Hlines.
  split.
  - rewrite (run_check_records _ _ _ _ _ _ _ Hf Hrun), Hlines.
    rewrite scan_records_app. reflexivity.
  - intros r Hr. apply line_records_group in Hr as [Hl _].
    unfold group_label_at in Hl. destruct (separator chk) as [sd|]; [|exact Hl].
    split.
    + intros (l & g & Hin & Hhit).
      destruct (nearest_separator (regex sd) (seen ++ [line])) as [g'|] eqn:Hn;
        [exact Hl|].
      exfalso.
      assert (nearest_separator (regex sd) (seen ++ [line]) <> None) as Hne.
      { clear Hn Hl. unfold nearest_separator.
        apply in_rev in Hin. revert Hin.
        induction (rev (seen ++ [line])) as [|x ls IH]; simpl; [tauto|].
        intros [->|Hin].
        - rewrite Hhit. discriminate.
        - destruct (separator_hit (regex sd) x); [discriminate | now apply IH]. }
      now apply Hne.
    + intros Hnone. now rewrite (nearest_separator_none _ _ Hnone) in Hl.
Qed.

Lemma group_label_set_by_first_separator_line_witness :
  let seen := [ "Controllers found: 1" ] in
  let line := "   State : Ready" in
  let rest := [ "      Device #0"; "   State : Online" ] in
  let chk := physical_device_check in
  let text := unlines (seen ++ line :: rest) in
  scan_records chk [] (splitlines text)
  = [] ++ scan_records chk [] seen ++ line_records chk seen line
       ++ scan_records chk (seen ++ [line]) rest /\
  forall r, In r (line_records chk seen line) ->
    match separator chk with
    | None => separator_label r = None
    | Some sd =>
        ((exists l g, In l (seen ++ [line]) /\
                      separator_hit (regex sd) l = Some g) ->
         separator_label r = Some (label sd)) /\
        ((forall l, In l (seen ++ [line]) ->
                    separator_hit (regex sd) l = None) ->
         separator_label r = None)
    end.
Proof.
  intros seen line rest chk text.
  apply (group_label_set_by_first_separator_line
           (mock_world [ ("mocks/arcconf/pd.txt", text) ])
           (debug_run "arcconf") arcconf_config []
           chk text (scan_records chk [] (splitlines text))
           seen line rest).
  - reflexivity.
  - vm_compute. reflexivity.
  - vm_compute. reflexivity.
Defined.

(** C7 as stated fails: the physical device check has a separator, and a
    [State] line that comes before the first [Device #] line gives a record
    without a group label. *)
Lemma separator_check_record_without_label :
  separator physical_device_check
    = Some {| regex := "\s+Device #(\d+)"; label := "device" |} /\
  run_check (mock_world [ ("mocks/arcconf/pd.txt",
                           unlines [ "Controllers found: 1";
                                     "   State : Ready";
                                     "      Device #0" ]) ])
            (debug_run "arcconf") arcconf_config [] physical_device_check
  = Ok [ {| metric_name := "drive_offline"; separator_label := None;
            separator_value := None; status := 1; value := Some "Ready" |} ] /\
  ~ (forall w a cfg gathered chk ms r,
       separator chk <> None ->
       run_check w a cfg gathered chk = Ok ms ->
       In r ms -> ~ In r gathered ->
       separator_label r <> None).
Proof.
  split; [reflexivity|]. split; [vm_compute; reflexivity|].
  intros H.
  apply (H (mock_world [ ("mocks/arcconf/pd.txt",
                          unlines [ "Controllers found: 1";
                                    "   State : Ready";
                                    "      Device #0" ]) ])
           (debug_run "arcconf") arcconf_config [] physical_device_check
           [ {| metric_name := "drive_offline"; separator_label := None;
                separator_value := None; status := 1; value := Some "Ready" |} ]
           {| metric_name := "drive_offline"; separator_label := None;
              separator_value := None; status := 1; value := Some "Ready" |}).
  - discriminate.
  - vm_compute. reflexivity.
  - now left.
  - intros [].
  - reflexivity.
Qed.

(** ** C8 *)

(** C8. The records a check adds are, line after line and within a line
    rule after rule, one record for every pair of a line and a rule whose
    pattern matches it: a match of one rule does not keep the later rules
    from the line, and a label that matches on several lines gives a record
    for each. *)
Theorem every_rule_tried_on_every_line :
  forall w a cfg gathered chk text ms,
    fetch w a cfg chk = Ok text ->
    run_check w a cfg gathered chk = Ok ms ->
    exists recs,
      ms = gathered ++ recs /\
      map reading recs =
      flat_map
        (fun line =>
           flat_map (fun rule => map reading (rule_records line None None rule))
                    (values chk))
        (splitlines text).
Proof.
  intros w a cfg gathered chk text ms Hf Hrun.
  exists (scan_records chk [] (splitlines text)). split.
  - exact (run_check_records _ _ _ _ _ _ _ Hf Hrun).
  - apply scan_records_reading.
Qed.

Lemma every_rule_tried_on_every_line_witness :
  exists recs,
    [ {| metric_name := "drive_offline"; separator_label := None;
         separator_value := None; status := 0; value := Some "Online" |};
      {| metric_name := "drive_failed"; separator_label := None;
         separator_value := None; status := 1; value := Some "Online" |};
      {| metric_name := "drive_offline"; separator_label := None;
         separator_value := None; status := 0; value := Some "Online" |};
      {| metric_name := "drive_failed"; separator_label := None;
         separator_value := None; status := 1; value := Some "Online" |} ]
    = [] ++ recs /\
    map reading recs =
    flat_map
      (fun line =>
         flat_map (fun rule => map reading (rule_records line None None rule))
                  (values overlapping_check))
      (splitlines overlapping_text).
Proof.
  apply (every_rule_tried_on_every_line
           (mock_world [ ("mocks/overlap.txt", overlapping_text) ])
           (debug_run "arcconf") arcconf_config [] overlapping_check
           overlapping_text).
  - reflexivity.
  - vm_compute. reflexivity.
Defined.

(** ** C9 *)

(** C9. A debug run is determined by the mock files of the chosen profile:
    two worlds that give the same text for each of them give the same
    records in the same order, and the same printed lines and exit status,
    whatever else differs between the worlds. *)
Theorem debug_run_determined_by_mock_files :
  forall w1 w2 a,
    debug a = true ->
    (forall cfg chk,
        dict_get (vendor_binary a) BINARIES = Some cfg ->
        In chk (checks cfg) ->
        read_text w1 (path_join "mocks" (test chk))
        = read_text w2 (path_join "mocks" (test chk))) ->
    collect_metrics w1 a = collect_metrics w2 a /\ main w1 a = main w2 a.
Proof.
  intros w1 w2 a Hd Hfiles.
  assert (collect_metrics w1 a = collect_metrics w2 a) as Hc.
  { unfold collect_metrics.
    destruct (String.length (vendor_binary a) =? 0); cbn [bind];
      [reflexivity|].
    destruct (dict_get (vendor_binary a) BINARIES) as [cfg|] eqn:Hcfg;
      [|reflexivity].
    rewrite Hd. cbn [negb andb].
    apply for_each_ext. intros chk Hchk gathered.
    unfold run_check, fetch. rewrite Hd, (Hfiles cfg chk eq_refl Hchk).
    reflexivity. }
  split; [exact Hc|]. unfold main. now rewrite Hc.
Qed.

Lemma debug_run_determined_by_mock_files_witness :
  collect_metrics three_mock_files (debug_run "arcconf")
  = collect_metrics
      {| isfile := fun _ => true;
         read_text := read_text three_mock_files;
         run_command := fun _ => Some (2%Z, "Controller Status : Failed") |}
      (debug_run "arcconf") /\
  main three_mock_files (debug_run "arcconf")
  = main
      {| isfile := fun _ => true;
         read_text := read_text three_mock_files;
         run_command := fun _ => Some (2%Z, "Controller Status : Failed") |}
      (debug_run "arcconf").
Proof.
  apply (debug_run_determined_by_mock_files three_mock_files
           {| isfile := fun _ => true;
              read_text := read_text three_mock_files;
              run_command := fun _ => Some (2%Z, "Controller Status : Failed") |}
           (debug_run "arcconf")).
  - reflexivity.
  - intros cfg chk _ _. reflexivity.
Defined.

(** The two runs of the witness read the three mock files and give the same
    six records, in the same order. *)
Example debug_runs_give_six_records :
  map (fun r => (metric_name r, separator_value r, status r))
      (match collect_metrics
               {| isfile := fun _ => true;
                  read_text := read_text three_mock_files;
                  run_command :=
                    fun _ => Some (2%Z, "Controller Status : Failed") |}
               (debug_run "arcconf")
       with
       | Ok ms => ms
       | Raise _ => []
       end)
  = [ ("controller_has_error", None, 0%Z);
      ("logical_device_has_error", None, 1%Z);
      ("drive_offline", Some "0", 0%Z);
      ("drive_has_smart_warnings", Some "0", 0%Z);
      ("drive_offline", Some "1", 1%Z);
      ("drive_has_smart_warnings", Some "1", 1%Z) ] /\
  exit_status (main three_mock_files (debug_run "arcconf")) = 0%Z.
Proof. vm_compute. split; reflexivity. Qed.

(** ** C10 *)

(** C10. In a live run [subprocess.run] is called with [check=True]: a
    command that ends with a status other than zero raises
    [CalledProcessError] there, so a result that reaches the test of line
    178 has return code 0, and the exit of line 180 is taken only for a
    command that ended with status 0 and printed nothing. *)
Theorem returncode_test_never_fires :
  forall w a cfg chk,
    debug a = false ->
    (forall proc_res,
        subprocess_run w (path cfg :: args chk) true = Ok proc_res ->
        negb (returncode proc_res =? 0)%Z = false) /\
    (forall rc out,
        run_command w (path cfg :: args chk) = Some (rc, out) ->
        rc <> 0%Z ->
        fetch w a cfg chk = Raise (CalledProcessError rc)) /\
    (forall c msg,
        fetch w a cfg chk = Raise (SystemExit c msg) ->
        run_command w (path cfg :: args chk) = Some (0%Z, EmptyString)).
Proof.
  intros w a cfg chk Hd. unfold fetch, subprocess_run. rewrite Hd.
  destruct (run_command w (path cfg :: args chk)) as [[rc out]|].
  - cbn [andb]. destruct (Z.eqb_spec rc 0) as [->|Hrc]; cbn [negb bind].
    + repeat split.
      * intros p H; injection H as <-. reflexivity.
      * intros rc' out' H Hne. injection H as <- _. now elim Hne.
      * intros c msg. cbn [stdout returncode]. rewrite Z.eqb_refl.
        cbn [negb]. rewrite orb_false_r.
        destruct out as [|ch out]; cbn [String.length Nat.eqb];
          [reflexivity | discriminate].
    + repeat split.
      * discriminate.
      * intros rc' out' H _. injection H as <- _. reflexivity.
      * discriminate.
  - cbn [bind]. repeat split; discriminate.
Qed.

Lemma returncode_test_never_fires_witness :
  (forall proc_res,
      subprocess_run failing_binary_world
        (path arcconf_config :: args physical_device_check) true = Ok proc_res ->
      negb (returncode proc_res =? 0)%Z = false) /\
  (forall rc out,
      run_command failing_binary_world
        (path arcconf_config :: args physical_device_check) = Some (rc, out) ->
      rc <> 0%Z ->
      fetch failing_binary_world (live_run "arcconf") arcconf_config
            physical_device_check = Raise (CalledProcessError rc)) /\
  (forall c msg,
      fetch failing_binary_world (live_run "arcconf") arcconf_config
            physical_device_check = Raise (SystemExit c msg) ->
      run_command failing_binary_world
        (path arcconf_config :: args physical_device_check)
      = Some (0%Z, EmptyString)).
Proof.
  apply (returncode_test_never_fires failing_binary_world (live_run "arcconf")
           arcconf_config physical_device_check).
  reflexivity.
Defined.

(** The two ways a live check fails, at a command that ends with status 2
    and at one that prints nothing. *)
Example live_fetch_failures :
  fetch {| isfile := fun _ => true; read_text := fun _ => None;
           run_command := fun _ => Some (2%Z, "Controllers found: 0") |}
        (live_run "arcconf") arcconf_config physical_device_check
  = Raise (CalledProcessError 2) /\
  fetch failing_binary_world (live_run "arcconf") arcconf_config
        physical_device_check
  = Raise (SystemExit 1 "Vendor binary returned empty result or error.").
Proof. split; reflexivity. Qed.

(** * Further properties of the code *)

(** ** The exits of a run *)

Lemma re_match_not_exit p s e : Re.re_match p s = Raise e -> not_exit e.
Proof.
  unfold Re.re_match. destruct (Re.compile p); [discriminate|].
  intros H; injection H as <-. exact I.
Qed.

Lemma group_not_exit m n e : Re.group m n = Raise e -> not_exit e.
Proof.
  unfold Re.group. destruct (n <=? Re.m_groups m); [discriminate|].
  intros H; injection H as <-. exact I.
Qed.

Lemma try_rule_not_exit line l v ms rule e :
  try_rule line l v ms rule = Raise e -> not_exit e.
Proof.
  unfold try_rule.
  destruct rule as [|a [|m [|x [|y rule]]]];
    try (intros H; injection H as <-; exact I).
  destruct (Re.re_match (attribute_pattern a) line) as [[mo|]|ex] eqn:Hm;
    cbn [bind]; try discriminate.
  - destruct (Re.group mo 1) as [g|ex] eqn:Hg; cbn [bind]; [discriminate|].
    intros H; injection H as <-. exact (group_not_exit _ _ _ Hg).
  - intros H; injection H as <-. exact (re_match_not_exit _ _ _ Hm).
Qed.

Lemma scan_line_not_exit chk st line e :
  scan_line chk st line = Raise e -> not_exit e.
Proof.
  unfold scan_line.
  destruct (update_separator chk st line) as [[v l]|ex] eqn:Hu; cbn [bind].
  - destruct (for_each _ (values chk) (metrics st)) as [ms|ex] eqn:Hr;
      cbn [bind]; [discriminate|].
    intros H; injection H as <-.
    apply for_each_raise_inv in Hr as (ms1 & rule & _ & Hr).
    exact (try_rule_not_exit _ _ _ _ _ _ Hr).
  - intros H; injection H as <-. unfold update_separator in Hu.
    destruct (separator chk) as [sd|]; [|discriminate].
    destruct (Re.re_match (regex sd) line) as [[mo|]|ex'] eqn:Hm;
      cbn [bind] in Hu; try discriminate.
    + destruct (Re.group mo 1) as [g|ex'] eqn:Hg; cbn [bind] in Hu;
        [discriminate|].
      injection Hu as <-. exact (group_not_exit _ _ _ Hg).
    + injection Hu as <-. exact (re_match_not_exit _ _ _ Hm).
Qed.

(** The one exit [fetch] asks for, and what leads to it. *)
Lemma fetch_exit_inv w a cfg chk c m :
  fetch w a cfg chk = Raise (SystemExit c m) ->
  c = 1%Z /\ m = "Vendor binary returned empty result or error." /\
  debug a = false /\
  run_command w (path cfg :: args chk) = Some (0%Z, EmptyString).
Proof.
  unfold fetch, subprocess_run. destruct (debug a).
  - destruct (read_text w _); discriminate.
  - destruct (run_command w _) as [[rc out]|]; [|discriminate].
    cbn [andb]. destruct (Z.eqb_spec rc 0) as [->|Hrc]; cbn [negb bind];
      [|discriminate].
    cbn [stdout returncode]. rewrite Z.eqb_refl. cbn [negb].
    rewrite orb_false_r.
    destruct out as [|ch out]; cbn [String.length Nat.eqb]; [|discriminate].
    intros H; injection H as <- <-. auto.
Qed.

Lemma run_check_exit_inv w a cfg gathered chk c m :
  run_check w a cfg gathered chk = Raise (SystemExit c m) ->
  fetch w a cfg chk = Raise (SystemExit c m).
Proof.
  unfold run_check.
  destruct (fetch w a cfg chk) as [text|ex] eqn:Hf; cbn [bind].
  - destruct (for_each _ (splitlines text) _) as [st|ex] eqn:Hs; cbn [bind];
      [discriminate|].
    intros H; injection H as ->.
    apply for_each_raise_inv in Hs as (st1 & line & _ & Hs).
    apply scan_line_not_exit in Hs. destruct Hs.
  - intros H; injection H as ->. reflexivity.
Qed.

Lemma dict_get_binaries name cfg :
  dict_get name BINARIES = Some cfg ->
  (name = "megacli" /\ cfg = megacli_config) \/
  (name = "arcconf" /\ cfg = arcconf_config).
Proof.
  unfold BINARIES. cbn [dict_get].
  destruct (String.eqb_spec "megacli" name) as [<-|_].
  - intros H; injection H as <-. now left.
  - destruct (String.eqb_spec "arcconf" name) as [<-|_]; [|discriminate].
    intros H; injection H as <-. now right.
Qed.

Lemma dict_get_unknown name :
  name <> "megacli" -> name <> "arcconf" -> dict_get name BINARIES = None.
Proof.
  intros H1 H2. destruct (dict_get name BINARIES) as [cfg|] eqn:H;
    [|reflexivity].
  apply dict_get_binaries in H as [[-> _]|[-> _]]; [now elim H1 | now elim H2].
Qed.

(** X1. A run ends in one of two ways: with exit status 0 and one printed
    line for each collected record, in their order, or with exit status 1
    and no metric line at all. *)
Theorem run_prints_all_or_nothing :
  forall w a,
    (exists ms, collect_metrics w a = Ok ms /\
                main w a = {| printed := map (print_metric a) ms;
                              exit_status := 0 |}) \/
    (exists e, collect_metrics w a = Raise e /\
               main w a = {| printed := []; exit_status := 1 |}).
Proof.
  intros w a. destruct (collect_metrics w a) as [ms|e] eqn:Hc.
  - left. exists ms. split; [reflexivity|]. unfold main. now rewrite Hc.
  - right. exists e. split; [reflexivity|]. exact (main_of_raise _ _ _ Hc).
Qed.

(** X2. With a vendor binary that is neither [megacli] nor [arcconf] no
    check is run, whatever the world: the run raises [NameError] for the
    empty name (the name [config] of line 156 is bound nowhere) and exits
    with "Unknown binary or no binary specified." for any other; either way
    nothing is printed and the exit status is 1. *)
Theorem unknown_binary_runs_no_check :
  forall w a,
    vendor_binary a <> "megacli" ->
    vendor_binary a <> "arcconf" ->
    (vendor_binary a = EmptyString ->
     collect_metrics w a = Raise (NameError "config")) /\
    (vendor_binary a <> EmptyString ->
     collect_metrics w a
     = Raise (SystemExit 1 "Unknown binary or no binary specified.")) /\
    main w a = {| printed := []; exit_status := 1 |}.
Proof.
  intros w a H1 H2.
  assert ((vendor_binary a = EmptyString ->
           collect_metrics w a = Raise (NameError "config")) /\
          (vendor_binary a <> EmptyString ->
           collect_metrics w a
           = Raise (SystemExit 1 "Unknown binary or no binary specified.")))
    as [He Hn].
  { unfold collect_metrics. split.
    - intros ->. reflexivity.
    - intros Hne. destruct (vendor_binary a) as [|c s] eqn:Hv;
        [now elim Hne|].
      cbn [String.length Nat.eqb bind].
      now rewrite (dict_get_unknown _ H1 H2). }
  split; [exact He|]. split; [exact Hn|].
  destruct (string_dec (vendor_binary a) EmptyString) as [Hv|Hv].
  - exact (main_of_raise _ _ _ (He Hv)).
  - exact (main_of_raise _ _ _ (Hn Hv)).
Qed.

Lemma unknown_binary_runs_no_check_witness :
  (vendor_binary (live_run "storcli") = EmptyString ->
   collect_metrics failing_binary_world (live_run "storcli")
   = Raise (NameError "config")) /\
  (vendor_binary (live_run "storcli") <> EmptyString ->
   collect_metrics failing_binary_world (live_run "storcli")
   = Raise (SystemExit 1 "Unknown binary or no binary specified.")) /\
  main failing_binary_world (live_run "storcli")
  = {| printed := []; exit_status := 1 |}.
Proof.
  apply (unknown_binary_runs_no_check failing_binary_world (live_run "storcli")).
  - discriminate.
  - discriminate.
Defined.

(** X3. Every exit the run asks for has status 1 and one of three
    messages, and each message tells its cause: an unknown binary name; a
    live run whose binary path is no file; a live run, with the binary in
    place, in which the command of some check ended with status 0 and
    printed nothing. *)
Theorem exits_tell_their_cause :
  forall w a c m,
    collect_metrics w a = Raise (SystemExit c m) ->
    c = 1%Z /\
    ((m = "Unknown binary or no binary specified." /\
      dict_get (vendor_binary a) BINARIES = None) \/
     (m = "Supporting vendor binary not found." /\
      debug a = false /\
      exists cfg, dict_get (vendor_binary a) BINARIES = Some cfg /\
                  isfile w (path cfg) = false) \/
     (m = "Vendor binary returned empty result or error." /\
      debug a = false /\
      exists cfg chk,
        dict_get (vendor_binary a) BINARIES = Some cfg /\
        isfile w (path cfg) = true /\
        In chk (checks cfg) /\
        run_command w (path cfg :: args chk) = Some (0%Z, EmptyString))).
Proof.
  intros w a c m. unfold collect_metrics.
  destruct (String.length (vendor_binary a) =? 0); cbn [bind];
    [discriminate|].
  destruct (dict_get (vendor_binary a) BINARIES) as [cfg|] eqn:Hcfg.
  - destruct (debug a) eqn:Hd; cbn [negb andb].
    + intros H. apply for_each_raise_inv in H as (ms & chk & Hin & H).
      apply run_check_exit_inv, fetch_exit_inv in H as (_ & _ & Hd' & _).
      congruence.
    + destruct (isfile w (path cfg)) eqn:Hfile; cbn [negb].
      * intros H. apply for_each_raise_inv in H as (ms & chk & Hin & H).
        apply run_check_exit_inv, fetch_exit_inv in H as (-> & -> & _ & Hrun).
        split; [reflexivity|]. right. right.
        split; [reflexivity|]. split; [reflexivity|].
        exists cfg, chk. auto.
      * intros H; injection H as <- <-. split; [reflexivity|].
        right. left. split; [reflexivity|]. split; [reflexivity|].
        exists cfg. auto.
  - intros H; injection H as <- <-. split; [reflexivity|]. left. auto.
Qed.

Lemma exits_tell_their_cause_witness :
  1%Z = 1%Z /\
  (("Vendor binary returned empty result or error."
    = "Unknown binary or no binary specified." /\
    dict_get (vendor_binary (live_run "arcconf")) BINARIES = None) \/
   ("Vendor binary returned empty result or error."
    = "Supporting vendor binary not found." /\
    debug (live_run "arcconf") = false /\
    exists cfg, dict_get (vendor_binary (live_run "arcconf")) BINARIES
                = Some cfg /\
                isfile failing_binary_world (path cfg) = false) \/
   ("Vendor binary returned empty result or error."
    = "Vendor binary returned empty result or error." /\
    debug (live_run "arcconf") = false /\
    exists cfg chk,
      dict_get (vendor_binary (live_run "arcconf")) BINARIES = Some cfg /\
      isfile failing_binary_world (path cfg) = true /\
      In chk (checks cfg) /\
      run_command failing_binary_world (path cfg :: args chk)
      = Some (0%Z, EmptyString))).
Proof.
  apply (exits_tell_their_cause failing_binary_world (live_run "arcconf")).
  vm_compute. reflexivity.
Defined.

(** X4. A live run whose binary path is no file asks for the exit
    "Supporting vendor binary not found." before any command is run: the
    outcome is the same whatever the commands would give. *)
Theorem missing_binary_runs_no_command :
  forall w a cfg,
    debug a = false ->
    dict_get (vendor_binary a) BINARIES = Some cfg ->
    isfile w (path cfg) = false ->
    forall answers,
      collect_metrics {| isfile := isfile w; read_text := read_text w;
                         run_command := answers |} a
      = Raise (SystemExit 1 "Supporting vendor binary not found.") /\
      main {| isfile := isfile w; read_text := read_text w;
              run_command := answers |} a
      = {| printed := []; exit_status := 1 |}.
Proof.
  intros w a cfg Hd Hcfg Hfile answers.
  assert (collect_metrics {| isfile := isfile w; read_text := read_text w;
                             run_command := answers |} a
          = Raise (SystemExit 1 "Supporting vendor binary not found.")) as Hc.
  { unfold collect_metrics.
    destruct (vendor_binary a) as [|ch s] eqn:Hv; [discriminate|].
    cbn [String.length Nat.eqb bind isfile]. rewrite Hcfg, Hd, Hfile.
    reflexivity. }
  split; [exact Hc|]. exact (main_of_raise _ _ _ Hc).
Qed.

Lemma missing_binary_runs_no_command_witness :
  collect_metrics
    {| isfile := isfile pd_world; read_text := read_text pd_world;
       run_command := fun _ => Some (0%Z, "Controller Status : Optimal") |}
    (live_run "arcconf")
  = Raise (SystemExit 1 "Supporting vendor binary not found.") /\
  main {| isfile := isfile pd_world; read_text := read_text pd_world;
          run_command := fun _ => Some (0%Z, "Controller Status : Optimal") |}
       (live_run "arcconf")
  = {| printed := []; exit_status := 1 |}.
Proof.
  apply (missing_binary_runs_no_command pd_world (live_run "arcconf")
           arcconf_config).
  - reflexivity.
  - reflexivity.
  - reflexivity.
Defined.

(** ** Checks that cannot be fetched *)

(** X5. When the text of some check of the chosen profile cannot be had,
    the mock file being unreadable in a debug run or the command failing to
    start in a live run, the run prints no metric line and ends with status
    1, also when earlier checks had records. *)
Theorem unfetchable_check_aborts_run :
  forall w a cfg chk,
    dict_get (vendor_binary a) BINARIES = Some cfg ->
    In chk (checks cfg) ->
    (debug a = true /\ read_text w (path_join "mocks" (test chk)) = None) \/
    (debug a = false /\ run_command w (path cfg :: args chk) = None) ->
    fetch w a cfg chk = Raise OSError /\
    main w a = {| printed := []; exit_status := 1 |}.
Proof.
  intros w a cfg chk Hcfg Hin Hbad.
  assert (fetch w a cfg chk = Raise OSError) as Hf.
  { unfold fetch, subprocess_run.
    destruct Hbad as [[-> ->]|[-> ->]]; reflexivity. }
  split; [exact Hf|].
  destruct (collect_metrics w a) as [ms|e] eqn:Hc;
    [|exact (main_of_raise _ _ _ Hc)].
  exfalso. unfold collect_metrics in Hc.
  destruct (String.length (vendor_binary a) =? 0); cbn [bind] in Hc;
    [discriminate|].
  rewrite Hcfg in Hc.
  destruct (negb (debug a) && negb (isfile w (path cfg))); [discriminate|].
  destruct (run_checks_failure w a cfg chk (checks cfg) Hin
              (ex_intro _ OSError Hf) []) as (e & He).
  rewrite He in Hc. discriminate.
Qed.

Lemma unfetchable_check_aborts_run_witness :
  fetch pd_world (debug_run "arcconf") arcconf_config
        (nth 0 arcconf_checks physical_device_check) = Raise OSError /\
  main pd_world (debug_run "arcconf") = {| printed := []; exit_status := 1 |}.
Proof.
  apply (unfetchable_check_aborts_run pd_world (debug_run "arcconf")
           arcconf_config (nth 0 arcconf_checks physical_device_check)).
  - reflexivity.
  - simpl. left. reflexivity.
  - left. split; reflexivity.
Defined.

(** ** The run as the sequence of its checks *)

Lemma run_check_ok_fetch w a cfg gathered chk ms :
  run_check w a cfg gathered chk = Ok ms ->
  exists text, fetch w a cfg chk = Ok text.
Proof.
  unfold run_check. destruct (fetch w a cfg chk) as [text|e]; [eauto|].
  discriminate.
Qed.

Lemma run_checks_records w a cfg chks : forall gathered ms,
  for_each (run_check w a cfg) chks gathered = Ok ms ->
  (forall chk, In chk chks -> exists text, fetch w a cfg chk = Ok text) /\
  ms = gathered ++ flat_map (check_records w a cfg) chks.
Proof.
  induction chks as [|chk chks IH]; intros gathered ms; simpl.
  - intros H; injection H as <-. split; [tauto | now rewrite app_nil_r].
  - intros H. apply bind_ok in H as (ms1 & H1 & H2).
    destruct (run_check_ok_fetch _ _ _ _ _ _ H1) as (text & Hf).
    pose proof (run_check_records _ _ _ _ _ _ _ Hf H1) as ->.
    destruct (IH _ _ H2) as [Hall ->]. split.
    + intros c [<-|Hc]; [eauto | now apply Hall].
    + unfold check_records at 2. rewrite Hf. now rewrite app_assoc.
Qed.

Lemma collect_metrics_ok_inv w a ms :
  collect_metrics w a = Ok ms ->
  exists cfg,
    dict_get (vendor_binary a) BINARIES = Some cfg /\
    for_each (run_check w a cfg) (checks cfg) [] = Ok ms.
Proof.
  unfold collect_metrics.
  destruct (String.length (vendor_binary a) =? 0); cbn [bind];
    [discriminate|].
  destruct (dict_get (vendor_binary a) BINARIES) as [cfg|]; [|discriminate].
  destruct (negb (debug a) && negb (isfile w (path cfg))); [discriminate|].
  eauto.
Qed.

(** X6. The records of a run that ends well are the records of its checks
    one after the other, in the order of the catalogue; each check's
    records are those of the lines of its own text, in the order of the
    lines, and every check of the profile has been fetched. *)
Theorem run_is_sequence_of_checks :
  forall w a ms,
    collect_metrics w a = Ok ms ->
    exists cfg,
      dict_get (vendor_binary a) BINARIES = Some cfg /\
      (forall chk, In chk (checks cfg) ->
                   exists text, fetch w a cfg chk = Ok text) /\
      ms = flat_map
             (fun chk =>
                match fetch w a cfg chk with
                | Ok text => scan_records chk [] (splitlines text)
                | Raise _ => []
                end)
             (checks cfg).
Proof.
  intros w a ms H. apply collect_metrics_ok_inv in H as (cfg & Hcfg & H).
  exists cfg. split; [exact Hcfg|].
  apply run_checks_records in H as [Hall ->]. split; [exact Hall|].
  reflexivity.
Qed.

Lemma run_is_sequence_of_checks_witness :
  exists cfg,
    dict_get (vendor_binary (debug_run "arcconf")) BINARIES = Some cfg /\
    (forall chk, In chk (checks cfg) ->
                 exists text,
                   fetch three_mock_files (debug_run "arcconf") cfg chk
                   = Ok text) /\
    flat_map (check_records three_mock_files (debug_run "arcconf")
                            arcconf_config) arcconf_checks
    = flat_map
        (fun chk =>
           match fetch three_mock_files (debug_run "arcconf") cfg chk with
           | Ok text => scan_records chk [] (splitlines text)
           | Raise _ => []
           end)
        (checks cfg).
Proof.
  apply (run_is_sequence_of_checks three_mock_files (debug_run "arcconf")).
  vm_compute. reflexivity.
Defined.

(** ** What every record of a run satisfies *)

Lemma group_label_none_value_none chk seen :
  group_label_at chk seen = None -> group_value_at chk seen = None.
Proof.
  unfold group_label_at, group_value_at.
  destruct (separator chk) as [sd|]; [|reflexivity].
  destruct (nearest_separator (regex sd) seen); [discriminate | reflexivity].
Qed.

Lemma group_label_some chk seen l :
  group_label_at chk seen = Some l ->
  exists sd, separator chk = Some sd /\ label sd = l.
Proof.
  unfold group_label_at. destruct (separator chk) as [sd|]; [|discriminate].
  destruct (nearest_separator (regex sd) seen); [|discriminate].
  intros H; injection H as <-. eauto.
Qed.

Lemma check_records_in w a cfg chk r :
  In r (check_records w a cfg chk) ->
  exists text before line,
    fetch w a cfg chk = Ok text /\ In line (splitlines text) /\
    incl before (splitlines text) /\
    In r (line_records chk before line).
Proof.
  unfold check_records.
  destruct (fetch w a cfg chk) as [text|e]; [|intros []].
  intros H. apply scan_records_in in H as (before & line & Hl & Hi & Hr).
  exists text, before, line. auto.
Qed.

(** X7. In every record of a run that ends well the status is 0 or 1; a
    record without a group label has no group value either, so that
    printing by the label alone never drops a group value; and a group
    label is the label of the separator of a check of the profile. *)
Theorem records_are_well_formed :
  forall w a ms r,
    collect_metrics w a = Ok ms ->
    In r ms ->
    (status r = 0%Z \/ status r = 1%Z) /\
    (separator_label r = None -> separator_value r = None) /\
    (forall l, separator_label r = Some l ->
               exists cfg chk sd,
                 dict_get (vendor_binary a) BINARIES = Some cfg /\
                 In chk (checks cfg) /\
                 separator chk = Some sd /\ label sd = l).
Proof.
  intros w a ms r H Hr.
  apply collect_metrics_ok_inv in H as (cfg & Hcfg & H).
  apply run_checks_records in H as [_ ->]. simpl in Hr.
  apply in_flat_map in Hr as (chk & Hchk & Hr).
  apply check_records_in in Hr as (text & before & line & _ & _ & _ & Hr).
  pose proof (line_records_group _ _ _ _ Hr) as [Hl Hv].
  unfold line_records in Hr. apply in_flat_map in Hr as (rule & _ & Hr).
  apply rule_records_inv in Hr as (an & ev & m & _ & _ & _ & Hs).
  split; [|split].
  - rewrite Hs. destruct (differs (value r) ev); simpl; auto.
  - intros Hnone. rewrite Hv. apply group_label_none_value_none.
    now rewrite <- Hl.
  - intros l Hsome. rewrite Hl in Hsome.
    apply group_label_some in Hsome as (sd & Hsd & Hlab).
    exists cfg, chk, sd. auto.
Qed.

Lemma records_are_well_formed_witness :
  let r := {| metric_name := "drive_offline"; separator_label := Some "device";
              separator_value := Some "1"; status := 1;
              value := Some "Failed" |} in
  (status r = 0%Z \/ status r = 1%Z) /\
  (separator_label r = None -> separator_value r = None) /\
  (forall l, separator_label r = Some l ->
             exists cfg chk sd,
               dict_get (vendor_binary (debug_run "arcconf")) BINARIES
               = Some cfg /\
               In chk (checks cfg) /\
               separator chk = Some sd /\ label sd = l).
Proof.
  intros r.
  apply (records_are_well_formed three_mock_files (debug_run "arcconf")
           (flat_map (check_records three_mock_files (debug_run "arcconf")
                                    arcconf_config) arcconf_checks) r).
  - vm_compute. reflexivity.
  - vm_compute. repeat (try (left; reflexivity); right).
Defined.

(** ** Runs of the two profiles *)

Lemma checks_total w a cfg chks :
  forallb check_ok chks = true ->
  (forall chk, In chk chks -> exists text, fetch w a cfg chk = Ok text) ->
  forall gathered,
    exists ms, for_each (run_check w a cfg) chks gathered = Ok ms.
Proof.
  induction chks as [|chk chks IH]; simpl; intros Hok Hf gathered; [eauto|].
  apply andb_true_iff in Hok as [Hc Hcs].
  destruct (Hf chk (or_introl eq_refl)) as (text & Ht).
  unfold run_check at 1. rewrite Ht. cbn [bind].
  destruct (scan_lines_total chk (splitlines text) Hc
              {| sep_value := None; sep_label := None; metrics := gathered |})
    as (st & ->).
  cbn [bind]. apply IH; auto.
Qed.

(** X8. A run of the arcconf profile ends well whenever the text of each
    of its three checks can be fetched (and, in a live run, the binary is
    in place): no line of any text makes the scan raise, the exit status is
    0 and there is one printed line for each record. *)
Theorem arcconf_run_ends_well :
  forall w a,
    vendor_binary a = "arcconf" ->
    (debug a = false -> isfile w (path arcconf_config) = true) ->
    (forall chk, In chk arcconf_checks ->
                 exists text, fetch w a arcconf_config chk = Ok text) ->
    exists ms,
      collect_metrics w a = Ok ms /\
      main w a = {| printed := map (print_metric a) ms; exit_status := 0 |}.
Proof.
  intros w a Hbin Hfile Hfetch.
  assert (exists ms, collect_metrics w a = Ok ms) as (ms & Hc).
  { unfold collect_metrics. rewrite Hbin.
    change (String.length "arcconf" =? 0) with false. cbn [bind].
    change (dict_get "arcconf" BINARIES) with (Some arcconf_config).
    cbv iota beta.
    assert (negb (debug a) && negb (isfile w (path arcconf_config)) = false)
      as ->.
    { destruct (debug a); [reflexivity|]. now rewrite Hfile. }
    apply checks_total; [vm_compute; reflexivity | exact Hfetch]. }
  exists ms. split; [exact Hc|]. unfold main. now rewrite Hc.
Qed.

Lemma arcconf_run_ends_well_witness :
  exists ms,
    collect_metrics three_mock_files (debug_run "arcconf") = Ok ms /\
    main three_mock_files (debug_run "arcconf")
    = {| printed := map (print_metric (debug_run "arcconf")) ms;
         exit_status := 0 |}.
Proof.
  apply (arcconf_run_ends_well three_mock_files (debug_run "arcconf")).
  - reflexivity.
  - discriminate.
  - intros chk [<-|[<-|[<-|[]]]]; eexists; reflexivity.
Defined.

Lemma short_rule_records line l v rule :
  short_rule rule = true -> rule_records line l v rule = [].
Proof.
  unfold short_rule, rule_records.
  destruct rule as [|a [|m [|e [|x rule]]]]; try reflexivity.
  discriminate.
Qed.

Lemma short_rules_records line l v rules :
  forallb short_rule rules = true ->
  flat_map (rule_records line l v) rules = [].
Proof.
  induction rules as [|rule rules IH]; simpl; [reflexivity|].
  rewrite andb_true_iff. intros [Hr Hrs].
  now rewrite (short_rule_records _ _ _ _ Hr), (IH Hrs).
Qed.

Lemma short_rules_scan_records chk lines : forall seen,
  forallb short_rule (values chk) = true ->
  scan_records chk seen lines = [].
Proof.
  induction lines as [|line lines IH]; intros seen Hshort; simpl;
    [reflexivity|].
  rewrite (IH _ Hshort), app_nil_r. unfold line_records.
  now apply short_rules_records.
Qed.

(** X9. A run of the megacli profile never prints a metric line, in any
    world: none of its rules unpacks into three names, so a run that does
    not raise has gathered no record. *)
Theorem megacli_never_prints :
  forall w a,
    vendor_binary a = "megacli" ->
    printed (main w a) = [] /\
    (forall ms, collect_metrics w a = Ok ms -> ms = []).
Proof.
  intros w a Hbin.
  assert (forall ms, collect_metrics w a = Ok ms -> ms = []) as Hnone.
  { intros ms H. apply collect_metrics_ok_inv in H as (cfg & Hcfg & H).
    rewrite Hbin in Hcfg.
    apply dict_get_binaries in Hcfg as [[_ ->]|[Hne _]]; [|discriminate].
    apply run_checks_records in H as [_ ->].
    assert (forall chks, forallb (fun c => forallb short_rule (values c)) chks
                         = true ->
                         flat_map (check_records w a megacli_config) chks = [])
      as Hall.
    { induction chks as [|c chks IH]; simpl; [reflexivity|].
      rewrite andb_true_iff. intros [Hc Hcs]. rewrite (IH Hcs), app_nil_r.
      unfold check_records. destruct (fetch w a megacli_config c); [|reflexivity].
      now apply short_rules_scan_records. }
    refine (Hall (checks megacli_config) _). vm_compute. reflexivity. }
  split; [|exact Hnone].
  unfold main. destruct (collect_metrics w a) as [ms|e] eqn:Hc.
  - now rewrite (Hnone ms eq_refl).
  - now destruct e.
Qed.

Lemma megacli_never_prints_witness :
  (printed (main megacli_report_files (debug_run "megacli")) = [] /\
   (forall ms,
       collect_metrics megacli_report_files (debug_run "megacli") = Ok ms ->
       ms = [])) /\
  (printed (main megacli_empty_files (debug_run "megacli")) = [] /\
   (forall ms,
       collect_metrics megacli_empty_files (debug_run "megacli") = Ok ms ->
       ms = [])).
Proof.
  split.
  - apply (megacli_never_prints megacli_report_files (debug_run "megacli")).
    reflexivity.
  - apply (megacli_never_prints megacli_empty_files (debug_run "megacli")).
    reflexivity.
Defined.

(** The two runs of the witness: with a report for each check the first
    line of the first text is scanned and its rule does not unpack; with
    five empty mock files every check is fetched, no line is scanned and
    the run returns without a record. *)
Example megacli_runs :
  fetch megacli_report_files (debug_run "megacli") megacli_config
        enclosure_check
  = Ok "    Status              : Normal" /\
  collect_metrics megacli_report_files (debug_run "megacli")
  = Raise ValueError /\
  collect_metrics megacli_empty_files (debug_run "megacli") = Ok [] /\
  main megacli_empty_files (debug_run "megacli")
  = {| printed := []; exit_status := 0 |}.
Proof. vm_compute. repeat split; reflexivity. Qed.

(** ** Live runs *)

(** X10. A live run reads no mock file: two worlds that agree on which
    paths are files and on what every command gives have the same records,
    the same printed lines and the same exit status. *)
Theorem live_run_reads_no_mock_file :
  forall w1 w2 a,
    debug a = false ->
    (forall p, isfile w1 p = isfile w2 p) ->
    (forall cmd, run_command w1 cmd = run_command w2 cmd) ->
    collect_metrics w1 a = collect_metrics w2 a /\ main w1 a = main w2 a.
Proof.
  intros w1 w2 a Hd Hfile Hrun.
  assert (collect_metrics w1 a = collect_metrics w2 a) as Hc.
  { unfold collect_metrics.
    destruct (String.length (vendor_binary a) =? 0); cbn [bind];
      [reflexivity|].
    destruct (dict_get (vendor_binary a) BINARIES) as [cfg|]; [|reflexivity].
    rewrite Hfile.
    destruct (negb (debug a) && negb (isfile w2 (path cfg))); [reflexivity|].
    apply for_each_ext. intros chk _ gathered.
    unfold run_check, fetch, subprocess_run. now rewrite Hd, Hrun. }
  split; [exact Hc|]. unfold main. now rewrite Hc.
Qed.

Lemma live_run_reads_no_mock_file_witness :
  collect_metrics failing_binary_world (live_run "arcconf")
  = collect_metrics
      {| isfile := isfile failing_binary_world;
         read_text := read_text pd_world;
         run_command := run_command failing_binary_world |}
      (live_run "arcconf") /\
  main failing_binary_world (live_run "arcconf")
  = main
      {| isfile := isfile failing_binary_world;
         read_text := read_text pd_world;
         run_command := run_command failing_binary_world |}
      (live_run "arcconf").
Proof.
  apply (live_run_reads_no_mock_file failing_binary_world
           {| isfile := isfile failing_binary_world;
              read_text := read_text pd_world;
              run_command := run_command failing_binary_world |}
           (live_run "arcconf")).
  - reflexivity.
  - intros p. reflexivity.
  - intros cmd. reflexivity.
Defined.

(** ** Printed lines *)

Section OneLine.
Import Re.

Lemma one_line_append a b :
  one_line (a ++ b) = one_line a && one_line b.
Proof. apply all_chars_append. Qed.

Lemma one_line_cons c s :
  one_line (String c s) = negb (Chars.is_linebreak c) && one_line s.
Proof. reflexivity. Qed.

Lemma item_ends_suffix c q s k t :
  In (k, t) (item_ends c q s) -> exists used, s = (used ++ t)%string.
Proof.
  destruct q; cbn [item_ends].
  - destruct s as [|a s']; [intros []|].
    destruct (cset_match c a); [|intros []].
    intros [H|[]]. injection H as _ <-. now exists (String a EmptyString).
  - intros H. apply in_reps in H as (used & -> & _). eauto.
  - destruct s as [|a s']; [intros []|].
    destruct (cset_match c a); [|intros []].
    intros H. apply in_map_iff in H as ([k' t'] & Heq & H).
    injection Heq as _ <-. apply in_reps in H as (used & -> & _).
    now exists (String a used).
  - destruct s as [|a s'].
    + intros [H|[]]. injection H as _ <-. now exists EmptyString.
    + destruct (cset_match c a).
      * intros [H|[H|[]]]; injection H as _ <-;
          [now exists (String a EmptyString) | now exists EmptyString].
      * intros [H|[]]. injection H as _ <-. now exists EmptyString.
Qed.

(** A match of a text without a line boundary leaves such a text and
    captures such texts only. *)
Lemma run_one_line r : forall p e,
  In e (run r p) ->
  one_line (rest p) = true ->
  (forall n v, In (n, v) (caps p) -> one_line v = true) ->
  one_line (rest e) = true /\
  (forall n v, In (n, v) (caps e) -> one_line v = true).
Proof.
  induction r as [|c q r IH|r IH|r IH|n body IHb r IH]; intros p e.
  - intros [<-|[]]. auto.
  - cbn [run]. rewrite in_flat_map. intros ([k t] & Hin & He) Hrest Hcaps.
    apply item_ends_suffix in Hin as (used & Hs).
    apply (IH _ _ He); cbn [rest caps]; [|exact Hcaps].
    rewrite Hs, one_line_append in Hrest.
    now apply andb_true_iff in Hrest.
  - cbn [run]. destruct (pos p =? 0); [apply IH | intros []].
  - cbn [run]. destruct (at_eol (rest p)); [apply IH | intros []].
  - rewrite in_run_group. intros (e1 & used & H1 & Hs & He) Hrest Hcaps.
    destruct (IHb _ _ H1 Hrest Hcaps) as [Hrest1 Hcaps1].
    apply (IH _ _ He); cbn [rest caps]; [exact Hrest1|].
    intros k v [H|H]; [|now apply (Hcaps1 k)].
    injection H as _ <-. rewrite Hs, one_line_append in Hrest.
    now apply andb_true_iff in Hrest.
Qed.

Lemma lookup_in n cs v : lookup n cs = Some v -> In (n, v) cs.
Proof.
  induction cs as [|[k u] cs IH]; simpl; [discriminate|].
  destruct (Nat.eqb_spec k n) as [->|_].
  - intros H; injection H as ->. now left.
  - intros H. right. now apply IH.
Qed.

(** What [group] gives for a match on such a text prints on one line. *)
Lemma group_one_line p s m n g :
  re_match p s = Ok (Some m) ->
  group m n = Ok g ->
  one_line s = true ->
  one_line (str_of g) = true.
Proof.
  unfold re_match, match_compiled, group.
  destruct (compile p) as [cp|]; [|discriminate].
  destruct (run (items cp) _) as [|e es] eqn:Hrun; [discriminate|].
  intros H; injection H as <-. cbn [m_groups m_caps].
  destruct (n <=? groups cp); [|discriminate].
  intros H; injection H as <-. intros Hs.
  destruct (lookup n (caps e)) as [v|] eqn:Hl; [|reflexivity].
  apply lookup_in in Hl. cbn [str_of].
  assert (In e (run (items cp) {| pos := 0; rest := s; caps := [] |})) as He
    by (rewrite Hrun; now left).
  destruct (run_one_line _ _ _ He Hs) as [_ Hcaps]; [intros ? ? []|].
  exact (Hcaps _ _ Hl).
Qed.

End OneLine.

Lemma separator_hit_one_line rx line g :
  separator_hit rx line = Some g ->
  one_line line = true ->
  one_line (str_of g) = true.
Proof.
  unfold separator_hit.
  destruct (Re.re_match rx line) as [[m|]|e] eqn:Hm; try discriminate.
  destruct (Re.group m 1) as [g'|e] eqn:Hg; [|discriminate].
  intros H; injection H as <-. now apply (group_one_line _ _ _ _ _ Hm Hg).
Qed.

Lemma catalogue_one_line name cfg chk :
  dict_get name BINARIES = Some cfg ->
  In chk (checks cfg) ->
  one_line name = true /\ check_one_line chk = true.
Proof.
  intros Hcfg Hin.
  apply dict_get_binaries in Hcfg as [[-> ->]|[-> ->]];
    (split; [reflexivity|]);
    revert chk Hin; apply forallb_forall; vm_compute; reflexivity.
Qed.

(** X11. Every metric line a run prints holds no line boundary: each
    record takes one line of the output, whatever the texts of the checks
    hold. *)
Theorem every_metric_on_one_line :
  forall w a line,
    In line (printed (main w a)) ->
    one_line line = true.
Proof.
  intros w a line. unfold main.
  destruct (collect_metrics w a) as [ms|e] eqn:Hc;
    [|destruct e; intros []].
  cbn [printed]. unfold print_all_metrics. rewrite in_map_iff.
  intros (r & <- & Hr).
  apply collect_metrics_ok_inv in Hc as (cfg & Hcfg & Hc).
  apply run_checks_records in Hc as [_ ->]. simpl in Hr.
  apply in_flat_map in Hr as (chk & Hchk & Hr).
  destruct (catalogue_one_line _ _ _ Hcfg Hchk) as [Hbin Hcat].
  apply check_records_in in Hr as (text & before & l & _ & Hl & Hbefore & Hr).
  pose proof (line_records_group _ _ _ _ Hr) as [Hlab Hval].
  unfold line_records in Hr. apply in_flat_map in Hr as (rule & Hrule & Hr).
  apply rule_records_inv in Hr as (an & ev & m & -> & Hm & Hg & Hs).
  unfold check_one_line in Hcat. apply andb_true_iff in Hcat as [Hrules Hsep].
  assert (one_line (metric_name r) = true) as Hname.
  { rewrite forallb_forall in Hrules. specialize (Hrules _ Hrule).
    simpl in Hrules. rewrite !andb_true_iff in Hrules. tauto. }
  assert (one_line l = true) as Hline by now apply splitlines_no_linebreak in Hl.
  assert (one_line (str_of (value r)) = true) as Hvalue
    by exact (group_one_line _ _ _ _ _ Hm Hg Hline).
  assert (one_line (string_of_Z (status r)) = true) as Hstatus.
  { rewrite Hs. now destruct (differs (value r) ev). }
  assert (one_line (str_of (separator_value r)) = true) as Hgroup.
  { rewrite Hval. unfold group_value_at.
    destruct (separator chk) as [sd|]; [|reflexivity].
    destruct (nearest_separator (regex sd) (before ++ [l])) as [g|] eqn:Hn;
      [|reflexivity].
    apply nearest_separator_some in Hn as (l' & Hin & Hhit).
    apply (separator_hit_one_line _ _ _ Hhit).
    apply in_app_iff in Hin as [Hin|[<-|[]]]; [|exact Hline].
    apply Hbefore in Hin. now apply splitlines_no_linebreak in Hin. }
  unfold print_metric.
  destruct (separator_label r) as [lab|] eqn:Hlabel.
  - assert (one_line lab = true) as Hlab'.
    { symmetry in Hlab. apply group_label_some in Hlab as (sd & Hsd & <-).
      now rewrite Hsd in Hsep. }
    repeat (rewrite one_line_append || rewrite one_line_cons).
    rewrite Hbin, Hname, Hlab', Hgroup, Hvalue, Hstatus. reflexivity.
  - repeat (rewrite one_line_append || rewrite one_line_cons).
    rewrite Hbin, Hname, Hvalue, Hstatus. reflexivity.
Qed.

Lemma every_metric_on_one_line_witness :
  one_line (print_metric (debug_run "arcconf")
              {| metric_name := "controller_has_error";
                 separator_label := None; separator_value := None;
                 status := 0; value := Some "Optimal" |}) = true.
Proof.
  apply (every_metric_on_one_line three_mock_files (debug_run "arcconf")).
  vm_compute. left. reflexivity.
Defined.

(** ** Device lines *)

Section Device.
Import Re.

Lemma span_append p s :
  s = (fst (span p s) ++ snd (span p s))%string.
Proof.
  induction s as [|c s IH]; simpl; [reflexivity|].
  destruct (p c); [|reflexivity].
  destruct (span p s) as [a b]. simpl in *. now rewrite <- IH.
Qed.

Lemma span_all p s : all_chars p (fst (span p s)) = true.
Proof.
  induction s as [|c s IH]; simpl; [reflexivity|].
  destruct (p c) eqn:Hc; [|reflexivity].
  destruct (span p s) as [a b]. simpl in *. now rewrite Hc.
Qed.

Lemma span_rest p s : starts_with p (snd (span p s)) = false.
Proof.
  induction s as [|c s IH]; simpl; [reflexivity|].
  destruct (p c) eqn:Hc; [|simpl; exact Hc].
  now destruct (span p s) as [a b].
Qed.

Lemma span_of_append p a b :
  all_chars p a = true -> starts_with p b = false ->
  span p (a ++ b) = (a, b).
Proof.
  intros Ha Hb. induction a as [|c a IH]; simpl in *.
  - destruct b as [|d b]; [reflexivity|]. simpl in *. now rewrite Hb.
  - apply andb_true_iff in Ha as [Hc Ha]. now rewrite Hc, (IH Ha).
Qed.

Lemma strip_prefix_append pre s : strip_prefix pre (pre ++ s) = Some s.
Proof.
  induction pre as [|c pre IH]; simpl; [reflexivity|].
  now rewrite Ascii.eqb_refl.
Qed.

Lemma strip_prefix_some pre : forall s t,
  strip_prefix pre s = Some t -> s = (pre ++ t)%string.
Proof.
  induction pre as [|c pre IH]; intros s t; simpl.
  - intros H; now injection H as ->.
  - destruct s as [|d s]; [discriminate|].
    destruct (Ascii.eqb_spec d c) as [->|_]; [|discriminate].
    intros H. now rewrite (IH _ _ H).
Qed.

(** The ends of a greedy repetition: the longest first, and every other
    one before a character that the repetition could still take. *)
Lemma reps_longest_first c s :
  exists others,
    reps c s = (String.length (fst (span (cset_match c) s)),
                snd (span (cset_match c) s)) :: others /\
    forall k t, In (k, t) others -> starts_with (cset_match c) t = true.
Proof.
  induction s as [|a s IH]; simpl.
  - exists []. split; [reflexivity | intros ? ? []].
  - destruct (cset_match c a) eqn:Ha.
    + destruct IH as (others & Hr & Ho). rewrite Hr.
      destruct (span (cset_match c) s) as [x y]. simpl.
      exists (map (fun '(k, t) => (S k, t)) others ++ [(0, String a s)]).
      split; [reflexivity|].
      intros k t Hin. apply in_app_iff in Hin as [Hin|[H|[]]].
      * apply in_map_iff in Hin as ([k' t'] & Heq & Hin).
        injection Heq as _ <-. now apply (Ho k').
      * injection H as _ <-. exact Ha.
    + exists []. split; [reflexivity | intros ? ? []].
Qed.

Lemma plus_longest_first c s :
  match fst (span (cset_match c) s) with
  | EmptyString => item_ends c QPlus s = []
  | String _ _ =>
      exists others,
        item_ends c QPlus s
        = (String.length (fst (span (cset_match c) s)),
           snd (span (cset_match c) s)) :: others /\
        forall k t, In (k, t) others -> starts_with (cset_match c) t = true
  end.
Proof.
  destruct s as [|a s]; simpl; [reflexivity|].
  destruct (cset_match c a) eqn:Ha; [|reflexivity].
  destruct (reps_longest_first c s) as (others & Hr & Ho). rewrite Hr.
  destruct (span (cset_match c) s) as [x y]. simpl.
  exists (map (fun '(k, t) => (S k, t)) others). split; [reflexivity|].
  intros k t Hin. apply in_map_iff in Hin as ([k' t'] & Heq & Hin).
  injection Heq as _ <-. now apply (Ho k').
Qed.

Lemma run_lits label r : forall p,
  run (lits label r) p =
  match strip_prefix label (rest p) with
  | Some t => run r {| pos := pos p + String.length label; rest := t;
                       caps := caps p |}
  | None => []
  end.
Proof.
  induction label as [|c label IH]; intros p.
  - simpl. rewrite Nat.add_0_r. now destruct p.
  - cbn [lits run item_ends strip_prefix].
    destruct (rest p) as [|d s]; [reflexivity|].
    cbn [cset_match]. destruct (Ascii.eqb d c); [|reflexivity].
    cbn [flat_map]. rewrite app_nil_r, IH. cbn [rest pos caps String.length].
    now replace (pos p + 1 + String.length label)
      with (pos p + S (String.length label)) by lia.
Qed.

Lemma flat_map_nil {A B : Type} (f : A -> list B) l :
  (forall x, In x l -> f x = []) -> flat_map f l = [].
Proof.
  induction l as [|x l IH]; simpl; intros H; [reflexivity|].
  rewrite (H x) by now left. apply IH. intros y Hy. apply H. now right.
Qed.

Lemma compile_device_pattern :
  compile "\s+Device #(\d+)" = Some {| items := device_items; groups := 1 |}.
Proof. reflexivity. Qed.

(** [re.match] with the separator pattern of line 95 gives the device
    number of the line. *)
Lemma match_device_line line :
  match_compiled {| items := device_items; groups := 1 |} line =
  match device_number line with
  | Some ds => Some {| m_groups := 1; m_caps := [(1, ds)] |}
  | None => None
  end.
Proof.
  unfold match_compiled, device_items, device_number.
  cbn [items groups run rest pos caps].
  pose proof (plus_longest_first CSpace line) as Hws.
  pose proof (span_append Chars.is_space line) as Hline.
  change (cset_match CSpace) with Chars.is_space in Hws.
  destruct (span Chars.is_space line) as [ws t]. cbn [fst snd] in *.
  destruct ws as [|w ws]; [now rewrite Hws|].
  destruct Hws as (others & -> & Hothers). cbn [flat_map].
  rewrite (flat_map_nil _ others), app_nil_r.
  - rewrite run_lits. cbn [rest pos caps].
    destruct (strip_prefix "Device #" t) as [u|]; [|reflexivity].
    cbn [run rest pos caps].
    pose proof (plus_longest_first CDigit u) as Hds.
    pose proof (span_append Chars.is_digit u) as Hu.
    change (cset_match CDigit) with Chars.is_digit in Hds.
    destruct (span Chars.is_digit u) as [ds r]. cbn [fst snd] in *.
    destruct ds as [|d ds]; [now rewrite Hds|].
    destruct Hds as (others2 & -> & _). cbn [flat_map app pos rest caps].
    f_equal. f_equal. f_equal. f_equal.
    match goal with
    | |- substring 0 ?n u = _ =>
        replace n with (String.length (String d ds)) by lia
    end.
    rewrite Hu. apply substring_prefix.
  - intros [k t'] Hin. apply Hothers in Hin. rewrite run_lits. cbn [rest].
    destruct t' as [|a t']; [discriminate|]. simpl in Hin.
    cbn [strip_prefix].
    destruct (Ascii.eqb_spec a "D") as [->|_]; [discriminate | reflexivity].
Qed.

Lemma separator_hit_device line :
  separator_hit "\s+Device #(\d+)" line
  = match device_number line with
    | Some ds => Some (Some ds)
    | None => None
    end.
Proof.
  unfold separator_hit, re_match. rewrite compile_device_pattern.
  rewrite match_device_line. now destruct (device_number line).
Qed.

Lemma device_number_of_shape ws ds tail :
  ws <> EmptyString -> blank ws = true ->
  ds <> EmptyString -> all_chars Chars.is_digit ds = true ->
  starts_with Chars.is_digit tail = false ->
  device_number (ws ++ "Device #" ++ ds ++ tail) = Some ds.
Proof.
  intros Hws Hblank Hds Hdigits Htail. unfold device_number.
  rewrite (span_of_append _ ws _ Hblank) by reflexivity.
  destruct ws as [|w ws]; [now elim Hws|].
  rewrite strip_prefix_append, (span_of_append _ ds _ Hdigits Htail).
  destruct ds; [now elim Hds | reflexivity].
Qed.

Lemma device_number_shape line ds :
  device_number line = Some ds ->
  exists ws tail,
    line = (ws ++ "Device #" ++ ds ++ tail)%string /\
    ws <> EmptyString /\ blank ws = true /\
    ds <> EmptyString /\ all_chars Chars.is_digit ds = true /\
    starts_with Chars.is_digit tail = false.
Proof.
  unfold device_number.
  pose proof (span_append Chars.is_space line) as Hline.
  pose proof (span_all Chars.is_space line) as Hblank.
  destruct (span Chars.is_space line) as [ws t]. cbn [fst snd] in *.
  destruct ws as [|w ws]; [discriminate|].
  destruct (strip_prefix "Device #" t) as [u|] eqn:Ht; [|discriminate].
  apply strip_prefix_some in Ht.
  pose proof (span_append Chars.is_digit u) as Hu.
  pose proof (span_all Chars.is_digit u) as Hdigits.
  pose proof (span_rest Chars.is_digit u) as Htail.
  destruct (span Chars.is_digit u) as [x tail]. cbn [fst snd] in *.
  destruct x as [|d x]; [discriminate|].
  intros H; injection H as <-.
  exists (String w ws), tail. rewrite Hline, Ht, Hu.
  repeat split; try assumption; discriminate.
Qed.

End Device.

(** X12. An ASCII line of the physical device report opens a group exactly
    when it starts with one whitespace character at least, followed after
    all the leading whitespace by [Device #] and one digit at least; the
    group value is the whole run of digits there, and what follows on the
    line plays no part.  (A line that starts with [Device #] at its first
    column opens no group.  Outside ASCII Python's whitespace and digits
    are wider than those of [Chars], and the theorem says nothing.) *)
Theorem device_line_opens_group :
  forall line,
    is_ascii line = true ->
    (forall ws ds tail,
        line = (ws ++ "Device #" ++ ds ++ tail)%string ->
        ws <> EmptyString -> blank ws = true ->
        ds <> EmptyString -> all_chars Chars.is_digit ds = true ->
        starts_with Chars.is_digit tail = false ->
        separator_hit "\s+Device #(\d+)" line = Some (Some ds)) /\
    ((forall ws ds tail,
         line = (ws ++ "Device #" ++ ds ++ tail)%string ->
         ws <> EmptyString -> blank ws = true ->
         ds <> EmptyString -> all_chars Chars.is_digit ds = true ->
         starts_with Chars.is_digit tail = false -> False) ->
     separator_hit "\s+Device #(\d+)" line = None).
Proof.
  intros line _. rewrite separator_hit_device. split.
  - intros ws ds tail -> Hws Hblank Hds Hdigits Htail.
    now rewrite (device_number_of_shape ws ds tail).
  - intros Hnone. destruct (device_number line) as [ds|] eqn:Hd;
      [|reflexivity].
    apply device_number_shape in Hd
      as (ws & tail & Hl & Hws & Hb & Hds & Hdg & Ht).
    now elim (Hnone ws ds tail).
Qed.

(** Device lines of a report, and two lines that open no group. *)
Example device_lines :
  separator_hit "\s+Device #(\d+)" "      Device #12" = Some (Some "12") /\
  separator_hit "\s+Device #(\d+)" "   Device #3 is a Hard drive"
  = Some (Some "3") /\
  separator_hit "\s+Device #(\d+)" "Device #0" = None /\
  separator_hit "\s+Device #(\d+)" "   Device #" = None.
Proof. vm_compute. repeat split; reflexivity. Qed.

Lemma device_line_opens_group_witness :
  separator_hit "\s+Device #(\d+)" "      Device #12 is a Hard drive"
  = Some (Some "12").
Proof.
  apply (proj1 (device_line_opens_group "      Device #12 is a Hard drive"
                                        eq_refl)
               "      " "12" " is a Hard drive").
  - reflexivity.
  - discriminate.
  - reflexivity.
  - discriminate.
  - reflexivity.
  - reflexivity.
Defined.

(** ** The text of a check *)

(** X13. A check has a text exactly in these cases, and the text is then
    taken as it is: in a debug run, when its mock file can be read, be it
    empty; in a live run, when the command could be started, ended with
    status 0 and printed something. *)
Theorem fetch_gives_text_exactly_when :
  forall w a cfg chk text,
    fetch w a cfg chk = Ok text <->
    (debug a = true /\
     read_text w (path_join "mocks" (test chk)) = Some text) \/
    (debug a = false /\ text <> EmptyString /\
     run_command w (path cfg :: args chk) = Some (0%Z, text)).
Proof.
  intros w a cfg chk text. unfold fetch, subprocess_run.
  destruct (debug a).
  - destruct (read_text w _) as [t|]; split.
    + intros H; injection H as ->. left. auto.
    + intros [[_ H]|[H _]]; [now injection H as -> | discriminate].
    + discriminate.
    + intros [[_ H]|[H _]]; discriminate.
  - destruct (run_command w _) as [[rc out]|].
    + cbn [andb]. destruct (Z.eqb_spec rc 0) as [->|Hrc]; cbn [negb bind].
      * cbn [stdout returncode]. rewrite Z.eqb_refl. cbn [negb].
        rewrite orb_false_r.
        destruct out as [|c out]; cbn [String.length Nat.eqb]; split.
        -- discriminate.
        -- intros [[H _]|(_ & Hne & H)]; [discriminate|].
           injection H as <-. now elim Hne.
        -- intros H; injection H as <-. right.
           split; [reflexivity|]. split; [discriminate | reflexivity].
        -- intros [[H _]|(_ & _ & H)]; [discriminate|].
           now injection H as <-.
      * split; [discriminate|].
        intros [[H _]|(_ & _ & H)]; [discriminate|].
        injection H as H _. now elim Hrc.
    + cbn [bind]. split; [discriminate|].
      intros [[H _]|(_ & _ & H)]; discriminate.
Qed.
